(** * Fitness studio booking API: the request handlers of [app.py]

    The Flask application keeps two module-level lists, [classes] and
    [bookings], and serves four routes.  Each handler is embedded as a
    function from the request and the current globals to the outcome of the
    request and the globals afterwards.  What the handlers draw from the
    environment ([uuid.uuid4()], [datetime.now()]) is an explicit argument.

    The fields of a request are strings, as in the data model of the
    specification: a JSON body is a dictionary from keys to strings, and a
    key may be missing.  Python's [None] is [None] here, a dictionary is a
    [gmap], a list that is updated in place is a list updated by index. *)

From Stdlib Require Import Ascii String.
From stdpp Require Import base option list gmap strings pretty.

Local Open Scope string_scope.

(** ** Data model *)

(** A fitness class: the dictionaries built in [reset_test_data]. *)
Module Cls.
Record t := mk {
  id : string;
  name : string;
  date_time : string;
  instructor : string;
  total_slots : Z;
  available_slots : Z
}.

(** [target_class['available_slots'] -= 1] *)
Definition decrement (c : t) : t :=
  mk (id c) (name c) (date_time c) (instructor c) (total_slots c)
     (available_slots c - 1).
End Cls.

(** A booking record: the dictionary built in [book_a_fitness_class]. *)
Module Booking.
Record t := mk {
  booking_id : string;
  class_id : string;
  client_name : string;
  client_email : string;
  booking_time : string
}.
End Booking.

(** The two module-level lists.  The module binds them only inside
    [reset_test_data] ([global classes, bookings]); until that handler has run
    once both names are unbound, which is [None] here. *)
Record store := Store {
  classes : list Cls.t;
  bookings : list Booking.t
}.

Definition globals := option store.

(** The JSON document a handler passes to [jsonify]. *)
Inductive body :=
| ErrorBody (error : string)
| MessageBody (message : string)
| ClassesBody (cs : list Cls.t)
| BookingsBody (bs : list Booking.t)
| BookedBody (message : string) (booking_details : Booking.t)
             (class_remaining_slots : Z).

Inductive exn :=
| NameError (name : string).

(** A handler returns [(jsonify(body), status)] or raises. *)
Inductive outcome :=
| Response (b : body) (status : Z)
| Raised (e : exn).

Definition status_of (o : outcome) : option Z :=
  match o with
  | Response _ st => Some st
  | Raised _ => None
  end.

(** The error kinds of the specification are the status codes the handlers
    answer with. *)
Definition InvalidInput (o : outcome) : Prop := status_of o = Some 400%Z.
Definition ClassNotFound (o : outcome) : Prop := status_of o = Some 404%Z.
Definition ClassFull (o : outcome) : Prop := status_of o = Some 409%Z.
Definition Created (o : outcome) : Prop := status_of o = Some 201%Z.
Definition Ok (o : outcome) : Prop := status_of o = Some 200%Z.

(** ** Python values *)

(** Truth value of what [dict.get] or [request.args.get] returns when the
    values are strings: [None] and the empty string are false. *)
Definition truthy (v : option string) : bool :=
  match v with
  | Some s => bool_decide (s ≠ "")
  | None => false
  end.

(** Truth value of the parsed request body: [None] and [{}] are false. *)
Definition truthy_dict (d : option (gmap string string)) : bool :=
  match d with
  | Some m => bool_decide (m ≠ ∅)
  | None => false
  end.

Definition all (l : list bool) : bool := forallb (λ b, b) l.

(** [timedelta(days, hours, minutes)] in microseconds. *)
Definition timedelta (days hours minutes : Z) : Z :=
  (((days * 24 + hours) * 60 + minutes) * 60 * 1000000)%Z.

(** ASCII lower-casing, the restriction of [str.lower] to ASCII text. *)
Definition ascii_lower_char (a : ascii) : ascii :=
  let n := nat_of_ascii a in
  if (65 <=? n)%nat && (n <=? 90)%nat then ascii_of_nat (n + 32) else a.

Fixpoint ascii_lower (s : string) : string :=
  match s with
  | EmptyString => EmptyString
  | String a s' => String (ascii_lower_char a) (ascii_lower s')
  end.

Section Handlers.

(** [str.lower] and [datetime.isoformat] belong to the Python runtime; the
    handlers are embedded over any two such functions.  A point in time is
    a number of microseconds. *)
Variable lower : string → string.
Variable isoformat : Z → string.

(** *** [POST /test/reset_data] *)

Definition seed_classes (u1 u2 u3 u4 : string) (t1 t2 t3 t4 : Z) : list Cls.t :=
  [ Cls.mk u1 "Sunrise Yoga & Meditation"
      (isoformat (t1 + timedelta 1 7 30)) "Zen Master Yoda" 18 18;
    Cls.mk u2 "Power HIIT Blast"
      (isoformat (t2 + timedelta 1 17 0)) "Captain America" 12 12;
    Cls.mk u3 "Groovy Zumba Fiesta"
      (isoformat (t3 + timedelta 2 18 45)) "Beyonc√© Knowles" 25 25;
    Cls.mk u4 "Core Strength Pilates"
      (isoformat (t4 + timedelta 3 9 0)) "Wonder Woman" 14 14 ].

(** [u1..u4] are the four [uuid.uuid4()] strings and [t1..t4] the four
    readings of [datetime.now()]. *)
Definition reset_test_data (u1 u2 u3 u4 : string) (t1 t2 t3 t4 : Z)
    (g : globals) : outcome * globals :=
  (Response (MessageBody "In-memory data reset successfully for testing.") 200,
   Some (Store (seed_classes u1 u2 u3 u4 t1 t2 t3 t4) [])).

(** *** [GET /classes] *)

Definition get_all_fitness_classes (g : globals) : outcome * globals :=
  match g with
  | None => (Raised (NameError "classes"), g)
  | Some s => (Response (ClassesBody (classes s)) 200, g)
  end.

(** *** [POST /book] *)

(** The [for cls in classes] loop: index and value of the first class
    whose id equals [class_id].  [target_class] is that element of the
    list itself, not a copy. *)
Definition find_class (class_id : string) (cs : list Cls.t) : option (nat * Cls.t) :=
  list_find (λ cls, Cls.id cls = class_id) cs.

Definition new_booking_record (uuid4 class_id client_name client_email : string)
    (now : Z) : Booking.t :=
  Booking.mk uuid4 class_id client_name client_email (isoformat now).

(** [request_data] is what [request.get_json()] returned, [uuid4] the
    string of the fresh UUID and [now] the reading of [datetime.now()]. *)
Definition book_a_fitness_class (request_data : option (gmap string string))
    (uuid4 : string) (now : Z) (g : globals) : outcome * globals :=
  if negb (truthy_dict request_data) then
    (Response (ErrorBody "Request body must be valid JSON.") 400, g)
  else
    let d := default ∅ request_data in
    let class_id := d !! "class_id" in
    let client_name := d !! "client_name" in
    let client_email := d !! "client_email" in
    if negb (all [truthy class_id; truthy client_name; truthy client_email]) then
      (Response (ErrorBody
         "Missing required fields: 'class_id', 'client_name', 'client_email'.") 400, g)
    else
      (* past the check the three are non-empty strings *)
      let class_id := default "" class_id in
      let client_name := default "" client_name in
      let client_email := default "" client_email in
      match g with
      | None => (Raised (NameError "classes"), g)
      | Some s =>
        match find_class class_id (classes s) with
        | None =>
          (Response (ErrorBody ("Class with ID '" +:+ class_id +:+ "' not found.")) 404, g)
        | Some (i, target_class) =>
          if (Cls.available_slots target_class <=? 0)%Z then
            (Response (ErrorBody "This class is fully booked. No slots available.") 409, g)
          else
            let target_class := Cls.decrement target_class in
            let classes' := <[i := target_class]> (classes s) in
            let record := new_booking_record uuid4 class_id client_name client_email now in
            (Response (BookedBody "Booking successfully created!" record
                         (Cls.available_slots target_class)) 201,
             Some (Store classes' (bookings s ++ [record])))
        end
      end.

(** *** [GET /bookings] *)

(** The list comprehension over [bookings]. *)
Definition client_specific_bookings (client_email_query : string)
    (bs : list Booking.t) : list Booking.t :=
  filter (λ booking, lower (Booking.client_email booking) = lower client_email_query) bs.

Definition get_client_bookings_by_email (client_email_query : option string)
    (g : globals) : outcome * globals :=
  if negb (truthy client_email_query) then
    (Response (ErrorBody
       "Please provide a 'client_email' query parameter (e.g., /bookings?client_email=your.email@example.com).")
       400, g)
  else
    let client_email_query := default "" client_email_query in
    match g with
    | None => (Raised (NameError "bookings"), g)
    | Some s =>
      match client_specific_bookings client_email_query (bookings s) with
      | [] =>
        (Response (MessageBody
           ("No bookings found for email: '" +:+ client_email_query +:+ "'.")) 200, g)
      | found => (Response (BookingsBody found) 200, g)
      end
    end.

(** ** Serving requests one after the other *)

(** The operations of the service, each with what it reads from the
    request and from the environment. *)
Inductive op :=
| ResetState (u1 u2 u3 u4 : string) (t1 t2 t3 t4 : Z)
| ListAllClasses
| BookClass (request_data : option (gmap string string)) (uuid4 : string) (now : Z)
| BookingsForClient (client_email_query : option string).

Definition handle (o : op) (g : globals) : outcome * globals :=
  match o with
  | ResetState u1 u2 u3 u4 t1 t2 t3 t4 => reset_test_data u1 u2 u3 u4 t1 t2 t3 t4 g
  | ListAllClasses => get_all_fitness_classes g
  | BookClass request_data uuid4 now => book_a_fitness_class request_data uuid4 now g
  | BookingsForClient q => get_client_bookings_by_email q g
  end.

(** Requests handled to completion one at a time: the outcomes in order
    and the globals at the end. *)
Fixpoint serve (ops : list op) (g : globals) : list outcome * globals :=
  match ops with
  | [] => ([], g)
  | o :: ops' =>
    let '(r, g1) := handle o g in
    let '(rs, g2) := serve ops' g1 in
    (r :: rs, g2)
  end.

(** ** Overlapping booking requests *)

(** [book_a_fitness_class] takes no lock.  A request in flight is the
    handler cut at the statements that touch the shared lists: the lookup
    loop, the test of line 120, the decrement of line 126, the append of
    line 137 and the read of [available_slots] for the response.  Once
    bound, the lists stay bound, so only the first step can meet [None]. *)
Inductive book_thread :=
| AtEntry (request_data : option (gmap string string)) (uuid4 : string) (now : Z)
| AtCheck (i : nat) (class_id client_name client_email uuid4 : string) (now : Z)
| AtDecrement (i : nat) (class_id client_name client_email uuid4 : string) (now : Z)
| AtAppend (i : nat) (record : Booking.t)
| AtReturn (i : nat) (record : Booking.t)
| Finished (o : outcome).

(** [target_class['available_slots']] for the element found at index [i].
    Booking requests never change the length of [classes], so the index
    stays in range. *)
Definition target_slots (i : nat) (s : store) : Z :=
  from_option Cls.available_slots 0%Z (classes s !! i).

Definition book_thread_step (t : book_thread) (g : globals) : book_thread * globals :=
  match t with
  | AtEntry request_data uuid4 now =>
    if negb (truthy_dict request_data) then
      (Finished (Response (ErrorBody "Request body must be valid JSON.") 400), g)
    else
      let d := default ∅ request_data in
      let class_id := d !! "class_id" in
      let client_name := d !! "client_name" in
      let client_email := d !! "client_email" in
      if negb (all [truthy class_id; truthy client_name; truthy client_email]) then
        (Finished (Response (ErrorBody
           "Missing required fields: 'class_id', 'client_name', 'client_email'.") 400), g)
      else
        let class_id := default "" class_id in
        let client_name := default "" client_name in
        let client_email := default "" client_email in
        match g with
        | None => (Finished (Raised (NameError "classes")), g)
        | Some s =>
          match find_class class_id (classes s) with
          | None =>
            (Finished (Response (ErrorBody
               ("Class with ID '" +:+ class_id +:+ "' not found.")) 404), g)
          | Some (i, _) => (AtCheck i class_id client_name client_email uuid4 now, g)
          end
        end
  | AtCheck i class_id client_name client_email uuid4 now =>
    match g with
    | None => (t, g)
    | Some s =>
      if (target_slots i s <=? 0)%Z then
        (Finished (Response
           (ErrorBody "This class is fully booked. No slots available.") 409), g)
      else (AtDecrement i class_id client_name client_email uuid4 now, g)
    end
  | AtDecrement i class_id client_name client_email uuid4 now =>
    match g with
    | None => (t, g)
    | Some s =>
      (AtAppend i (new_booking_record uuid4 class_id client_name client_email now),
       Some (Store (alter Cls.decrement i (classes s)) (bookings s)))
    end
  | AtAppend i record =>
    match g with
    | None => (t, g)
    | Some s => (AtReturn i record, Some (Store (classes s) (bookings s ++ [record])))
    end
  | AtReturn i record =>
    match g with
    | None => (t, g)
    | Some s =>
      (Finished (Response (BookedBody "Booking successfully created!" record
                             (target_slots i s)) 201), g)
    end
  | Finished _ => (t, g)
  end.

(** A schedule names, step by step, the request that runs next. *)
Fixpoint run_schedule (schedule : list nat) (ts : list book_thread) (g : globals)
    : list book_thread * globals :=
  match schedule with
  | [] => (ts, g)
  | k :: schedule' =>
    match ts !! k with
    | None => run_schedule schedule' ts g
    | Some t =>
      let '(t', g') := book_thread_step t g in
      run_schedule schedule' (<[k := t']> ts) g'
    end
  end.

(** A request taking [n] steps with no other request in between; five
    steps lead from entry to the outcome. *)
Fixpoint run_steps (n : nat) (t : book_thread) (g : globals) : book_thread * globals :=
  match n with
  | 0 => (t, g)
  | S n' =>
    let '(t', g') := book_thread_step t g in
    run_steps n' t' g'
  end.

Definition run_alone (t : book_thread) (g : globals) : book_thread * globals :=
  run_steps 5 t g.

End Handlers.

(** ** Concrete data for the examples *)

Definition yoga (available : Z) : Cls.t :=
  Cls.mk "Yoga" "Sunrise Yoga & Meditation" "2025-06-10T07:30:00" "Zen Master Yoda" 1 available.

Definition booking_request (class_id client_name client_email : string)
    : option (gmap string string) :=
  Some (<["class_id" := class_id]>
        (<["client_name" := client_name]>
         (<["client_email" := client_email]> ∅))).

Definition alice := booking_request "Yoga" "Alice" "a@x.com".
Definition bob := booking_request "Yoga" "Bob" "b@x.com".

(** A catalog with the one class, one slot left, and an empty ledger. *)
Definition one_slot : store := Store [yoga 1] [].

(** The same after Alice has taken the slot under a mixed-case email. *)
Definition sold_out : store :=
  Store [yoga 0] [Booking.mk "u1" "Yoga" "Alice" "A@B.com" "5"].

(** ** Reading a request *)

(** [request_data.get(key)]; with no body at all every field is absent. *)
Definition field (request_data : option (gmap string string)) (key : string)
    : option string :=
  request_data ≫= (λ d, d !! key).

(** A field that is empty or absent. *)
Definition missing (v : option string) : Prop := v = None ∨ v = Some "".

(** A request whose three fields are the non-empty strings given. *)
Definition well_formed (request_data : option (gmap string string))
    (class_id client_name client_email : string) : Prop :=
  field request_data "class_id" = Some class_id ∧
  field request_data "client_name" = Some client_name ∧
  field request_data "client_email" = Some client_email ∧
  class_id ≠ "" ∧ client_name ≠ "" ∧ client_email ≠ "".

(** ** Capacity *)

(** A class whose available slots lie between zero and its capacity. *)
Definition slots_in_range (c : Cls.t) : Prop :=
  (0 ≤ Cls.available_slots c ≤ Cls.total_slots c)%Z.

Definition catalog_in_range (g : globals) : Prop :=
  match g with
  | None => True
  | Some s => Forall slots_in_range (classes s)
  end.

(** The ledger entries that reference a class. *)
Definition bookings_of (class_id : string) (bs : list Booking.t) : list Booking.t :=
  filter (λ b, Booking.class_id b = class_id) bs.

(** A booking request with what it draws from the environment, and the
    operation that serves it. *)
Definition book_op (r : option (gmap string string) * string * Z) : op :=
  BookClass r.1.1 r.1.2 r.2.

(** A well-formed booking request for the class [class_id]. *)
Definition books_class (class_id : string)
    (r : option (gmap string string) * string * Z) : Prop :=
  ∃ client_name client_email, well_formed r.1.1 class_id client_name client_email.

(** Two emails that are equal when case is ignored, as the handler
    compares them. *)
Definition same_email (lower : string → string) (a b : string) : Prop :=
  lower a = lower b.

(** ** What a run of requests keeps *)

Definition is_reset (o : op) : bool :=
  match o with
  | ResetState _ _ _ _ _ _ _ _ => true
  | _ => false
  end.

(** The two operations that only read. *)
Definition reads_only (o : op) : bool :=
  match o with
  | ListAllClasses | BookingsForClient _ => true
  | _ => false
  end.

(** A reset whose four [uuid.uuid4()] strings differ from each other. *)
Definition fresh_ids (o : op) : Prop :=
  match o with
  | ResetState u1 u2 u3 u4 _ _ _ _ => NoDup [u1; u2; u3; u4]
  | _ => True
  end.

(** What a handler can answer while the lists are unbound. *)
Definition unbound_answer (o : outcome) : Prop :=
  (∃ name, o = Raised (NameError name)) ∨ InvalidInput o.

(** The same class with no more slots than before. *)
Definition same_class_fewer_slots (c c' : Cls.t) : Prop :=
  Cls.id c' = Cls.id c ∧ Cls.name c' = Cls.name c ∧
  Cls.date_time c' = Cls.date_time c ∧ Cls.instructor c' = Cls.instructor c ∧
  Cls.total_slots c' = Cls.total_slots c ∧
  (Cls.available_slots c' ≤ Cls.available_slots c)%Z.

(** Class ids are unique and, for every class, the slots taken are the
    bookings that reference it. *)
Definition accounted (g : globals) : Prop :=
  match g with
  | None => True
  | Some s =>
    NoDup (Cls.id <$> classes s) ∧
    Forall (λ c, Cls.total_slots c =
                 (Cls.available_slots c +
                  Z.of_nat (length (bookings_of (Cls.id c) (bookings s))))%Z)
           (classes s)
  end.

(** Every booking references a class of the catalog. *)
Definition references_resolve (g : globals) : Prop :=
  match g with
  | None => True
  | Some s => Forall (λ b, ∃ c, c ∈ classes s ∧ Cls.id c = Booking.class_id b) (bookings s)
  end.

Definition fields_nonempty (b : Booking.t) : Prop :=
  Booking.class_id b ≠ "" ∧ Booking.client_name b ≠ "" ∧ Booking.client_email b ≠ "".

Definition ledger_fields_nonempty (g : globals) : Prop :=
  match g with
  | None => True
  | Some s => Forall fields_nonempty (bookings s)
  end.

(** The number of requests answered with 201. *)
Definition count_created (outs : list outcome) : nat :=
  length (filter (λ o, status_of o = Some 201%Z) outs).

(** A booking request about to enter the handler. *)
Definition entry (r : option (gmap string string) * string * Z) : book_thread :=
  AtEntry r.1.1 r.1.2 r.2.

(** The schedule that runs requests [k], [k+1], ..., [k+n-1] in turn, each
    from entry to outcome before the next one starts. *)
Fixpoint in_turn (k n : nat) : list nat :=
  match n with
  | 0 => []
  | S n' => replicate 5 k ++ in_turn (S k) n'
  end.

(** The schedule of two requests in which both pass the test of line 120
    before either reaches the decrement of line 126. *)
Definition both_check_first : list nat := [0; 0; 1; 1; 0; 0; 0; 1; 1; 1].

(** The ways two requests can interleave their first two steps: each
    enters the handler and passes the test of line 120, in any order. *)
Definition tests_first : list (list nat) :=
  [ [0; 0; 1; 1]; [0; 1; 0; 1]; [0; 1; 1; 0];
    [1; 0; 0; 1]; [1; 0; 1; 0]; [1; 1; 0; 0] ].

(** A request that has passed the test of line 120 on the class at index
    [i] and is on its way to the answer, 201 with the record [b]. *)
Definition past_test (isoformat : Z → string) (i : nat) (b : Booking.t)
    (t : book_thread) : Prop :=
  match t with
  | AtDecrement j class_id n e u now =>
    j = i ∧ new_booking_record isoformat u class_id n e now = b
  | AtAppend j b' | AtReturn j b' => j = i ∧ b' = b
  | Finished o =>
    ∃ remaining, o = Response (BookedBody "Booking successfully created!" b remaining) 201
  | _ => False
  end.

(** What a request has appended to the ledger so far. *)
Definition appended (t : book_thread) : list Booking.t :=
  match t with
  | AtReturn _ b => [b]
  | Finished (Response (BookedBody _ b _) _) => [b]
  | _ => []
  end.

(** A second class, for the examples. *)
Definition hiit : Cls.t :=
  Cls.mk "HIIT" "Power HIIT Blast" "2025-06-10T17:00:00" "Captain America" 12 12.

Definition studio : store := Store [yoga 1; hiit] [].

(** The studio later in the day: the yoga class is sold out under Alice's
    booking, the second class is still open. *)
Definition busy_studio : store :=
  Store [yoga 0; hiit] [Booking.mk "u1" "Yoga" "Alice" "A@B.com" "5"].

(** The schedule of two requests in which both pass the test of line 120
    and both decrement before either builds its answer. *)
Definition both_decrement_first : list nat := [0; 0; 1; 1; 0; 1; 0; 0; 1; 1].

Definition carol := booking_request "HIIT" "Carol" "Carol@X.com".

(** A morning at the studio: bookings, a listing and a lookup. *)
Definition morning : list op :=
  [ BookClass alice "u1" 5; ListAllClasses; BookClass bob "u2" 6;
    BookClass carol "u3" 7; BookingsForClient (Some "carol@x.com") ].

(** The same with a reset in the middle. *)
Definition morning_with_reset : list op :=
  (morning ++ [ResetState "c1" "c2" "c3" "c4" 10 11 12 13;
              BookClass (booking_request "c2" "Bob" "b@x.com") "u4" 14])%list.

(** ** Requests *)

Lemma truthy_false v : truthy v = false ↔ missing v.
Proof.
  unfold missing. destruct v as [s|]; simpl.
  - rewrite bool_decide_eq_false. split.
    + intros H. right. f_equal. by apply dec_stable.
    + intros [?|[= ->]]; [done | tauto].
  - split; [by left | done].
Qed.

Lemma truthy_true v : truthy v = true ↔ ∃ s, v = Some s ∧ s ≠ "".
Proof.
  destruct v as [s|]; simpl.
  - rewrite bool_decide_eq_true. split; [eauto | by intros (? & [= <-] & ?)].
  - split; [done | by intros (? & ? & ?)].
Qed.

Lemma truthy_dict_field request_data key s :
  field request_data key = Some s → truthy_dict request_data = true.
Proof.
  destruct request_data as [d|]; simpl; [|done].
  intros H. apply bool_decide_eq_true. intros ->. by rewrite lookup_empty in H.
Qed.

Lemma field_default request_data key :
  default ∅ request_data !! key = field request_data key.
Proof. destruct request_data; simpl; [done | apply lookup_empty]. Qed.

(** Every request either misses a field or is well formed. *)
Lemma request_cases request_data :
  (missing (field request_data "class_id") ∨
   missing (field request_data "client_name") ∨
   missing (field request_data "client_email")) ∨
  ∃ class_id client_name client_email,
    well_formed request_data class_id client_name client_email.
Proof.
  destruct (truthy (field request_data "class_id")) eqn:H1;
    [|left; left; by apply truthy_false].
  destruct (truthy (field request_data "client_name")) eqn:H2;
    [|left; right; left; by apply truthy_false].
  destruct (truthy (field request_data "client_email")) eqn:H3;
    [|left; right; right; by apply truthy_false].
  apply truthy_true in H1 as (c & ? & ?), H2 as (n & ? & ?), H3 as (e & ? & ?).
  right. by exists c, n, e.
Qed.

Lemma missing_not_well_formed request_data class_id client_name client_email :
  well_formed request_data class_id client_name client_email →
  ¬ (missing (field request_data "class_id") ∨
     missing (field request_data "client_name") ∨
     missing (field request_data "client_email")).
Proof.
  intros (H1 & H2 & H3 & ? & ? & ?). unfold missing.
  rewrite H1, H2, H3. intros [[?|?]|[[?|?]|[?|?]]]; congruence.
Qed.

Section Booking_facts.

Variable isoformat : Z → string.

Local Abbreviation book := (book_a_fitness_class isoformat).

(** *** The four ways out of [book_a_fitness_class] *)

Lemma book_missing request_data uuid4 now g :
  missing (field request_data "class_id") ∨
  missing (field request_data "client_name") ∨
  missing (field request_data "client_email") →
  ∃ error, book request_data uuid4 now g = (Response (ErrorBody error) 400, g).
Proof.
  intros H. unfold book_a_fitness_class.
  destruct (truthy_dict request_data); simpl; [|eauto].
  rewrite !field_default.
  destruct H as [H|[H|H]]; apply truthy_false in H; rewrite H; simpl;
    rewrite ?andb_false_r; simpl; eauto.
Qed.

Lemma book_well_formed request_data class_id client_name client_email uuid4 now g :
  well_formed request_data class_id client_name client_email →
  book request_data uuid4 now g =
  match g with
  | None => (Raised (NameError "classes"), g)
  | Some s =>
    match find_class class_id (classes s) with
    | None =>
      (Response (ErrorBody ("Class with ID '" +:+ class_id +:+ "' not found.")) 404, g)
    | Some (i, target_class) =>
      if (Cls.available_slots target_class <=? 0)%Z then
        (Response (ErrorBody "This class is fully booked. No slots available.") 409, g)
      else
        (Response (BookedBody "Booking successfully created!"
                     (new_booking_record isoformat uuid4 class_id client_name
                        client_email now)
                     (Cls.available_slots target_class - 1)) 201,
         Some (Store (<[i := Cls.decrement target_class]> (classes s))
                     (bookings s ++
                      [new_booking_record isoformat uuid4 class_id client_name
                         client_email now])))
    end
  end.
Proof.
  intros (H1 & H2 & H3 & N1 & N2 & N3). unfold book_a_fitness_class.
  rewrite (truthy_dict_field _ _ _ H1). simpl.
  rewrite !field_default, H1, H2, H3. simpl.
  rewrite !bool_decide_eq_true_2 by done. simpl. reflexivity.
Qed.

End Booking_facts.

(** ** The catalog lookup *)

Lemma find_class_Some class_id cs i c :
  find_class class_id cs = Some (i, c) →
  cs !! i = Some c ∧ Cls.id c = class_id ∧ i < length cs.
Proof.
  unfold find_class. intros (Hi & Hid & _)%list_find_Some.
  split_and!; [done..|]. by eapply lookup_lt_Some.
Qed.

Lemma find_class_None class_id cs :
  find_class class_id cs = None ↔ Forall (λ c, Cls.id c ≠ class_id) cs.
Proof. unfold find_class. apply list_find_None. Qed.

(** With unique ids the lookup returns the one class that carries the id. *)
Lemma find_class_unique cs c :
  NoDup (Cls.id <$> cs) → c ∈ cs → ∃ i, find_class (Cls.id c) cs = Some (i, c).
Proof.
  intros Hnd [i Hi]%list_elem_of_lookup.
  destruct (find_class (Cls.id c) cs) as [[j c']|] eqn:Hf.
  - apply find_class_Some in Hf as (Hj & Hid & _).
    assert (i = j) as ->.
    { eapply NoDup_lookup; [done| |]; rewrite list_lookup_fmap.
      - by rewrite Hi.
      - rewrite Hj. simpl. by rewrite Hid. }
    exists j. congruence.
  - apply find_class_None in Hf. rewrite Forall_lookup in Hf.
    by destruct (Hf _ _ Hi).
Qed.

(** Decrementing the class that was found leaves the lookup on it. *)
Lemma find_class_decrement class_id cs i c :
  find_class class_id cs = Some (i, c) →
  find_class class_id (<[i := Cls.decrement c]> cs) = Some (i, Cls.decrement c).
Proof.
  unfold find_class. intros (Hi & Hid & Hleast)%list_find_Some.
  apply list_find_Some. split_and!.
  - apply list_lookup_insert_eq. by eapply lookup_lt_Some.
  - done.
  - intros j y Hj Hlt. rewrite list_lookup_insert_ne in Hj by lia. eauto.
Qed.

Lemma decrement_in_range c :
  slots_in_range c → (0 < Cls.available_slots c)%Z → slots_in_range (Cls.decrement c).
Proof. unfold slots_in_range. destruct c; simpl. lia. Qed.

(** ** The invariant on capacity *)

Section Invariant.

Variable lower : string → string.
Variable isoformat : Z → string.

Lemma seed_in_range u1 u2 u3 u4 t1 t2 t3 t4 :
  Forall slots_in_range (seed_classes isoformat u1 u2 u3 u4 t1 t2 t3 t4).
Proof. unfold seed_classes, slots_in_range. repeat constructor; simpl; lia. Qed.

Lemma book_in_range request_data uuid4 now g :
  catalog_in_range g →
  catalog_in_range (book_a_fitness_class isoformat request_data uuid4 now g).2.
Proof.
  intros Hg.
  destruct (request_cases request_data) as [Hm|(cid & n & e & Hwf)].
  - destruct (book_missing isoformat _ uuid4 now g Hm) as [err ->]. done.
  - rewrite (book_well_formed isoformat _ _ _ _ uuid4 now g Hwf).
    destruct g as [s|]; [|done].
    destruct (find_class cid (classes s)) as [[i c]|] eqn:Hf; [|done].
    destruct (Z.leb_spec (Cls.available_slots c) 0); [done|].
    simpl in *. apply find_class_Some in Hf as (Hi & _ & _).
    apply Forall_insert; [done|].
    apply decrement_in_range; [|done].
    by eapply (Forall_lookup_1 slots_in_range).
Qed.

Lemma bookings_unchanged q g :
  (get_client_bookings_by_email lower q g).2 = g.
Proof.
  unfold get_client_bookings_by_email.
  destruct (truthy q); simpl; [|done].
  destruct g as [s|]; [|done].
  by destruct (client_specific_bookings _ _ _).
Qed.

Lemma classes_unchanged g : (get_all_fitness_classes g).2 = g.
Proof. by destruct g. Qed.

Lemma serve_cons o ops g :
  serve lower isoformat (o :: ops) g =
  ((handle lower isoformat o g).1 ::
     (serve lower isoformat ops (handle lower isoformat o g).2).1,
   (serve lower isoformat ops (handle lower isoformat o g).2).2).
Proof.
  simpl. destruct (handle lower isoformat o g) as [r g1]. simpl.
  by destruct (serve lower isoformat ops g1).
Qed.

(** C1, as the code has it.  Whatever operations are served one after the
    other, each to completion before the next starts ([bookClass],
    [listAllClasses], [bookingsForClient], [resetState], in any order and
    with any arguments), every class of the catalog keeps
    [0 <= available_slots <= total_slots]: the property holds after the
    operations if it held before them, and it holds when the process
    starts, with no catalog at all.  (Booking requests that overlap can take
    [available_slots] below zero: the handler takes no lock.) *)
Theorem available_slots_stay_in_range (ops : list op) (g : globals) :
  catalog_in_range g →
  catalog_in_range (serve lower isoformat ops g).2.
Proof.
  revert g. induction ops as [|o ops IH]; intros g Hg.
  - exact Hg.
  - rewrite serve_cons. cbn [snd]. apply IH.
    destruct o; cbn [handle].
    + apply seed_in_range.
    + by rewrite classes_unchanged.
    + by apply book_in_range.
    + by rewrite bookings_unchanged.
Qed.

End Invariant.

(** ** Booking a class *)

Section Booking_theorems.

Variable isoformat : Z → string.

Local Abbreviation book := (book_a_fitness_class isoformat).
Local Abbreviation record := (new_booking_record isoformat).

(** A booking that is answered with 201 went through every test of the
    handler; this is the only way the globals change. *)
Lemma book_created_inv request_data uuid4 now g :
  Created (book request_data uuid4 now g).1 →
  ∃ s class_id client_name client_email i c,
    g = Some s ∧
    well_formed request_data class_id client_name client_email ∧
    find_class class_id (classes s) = Some (i, c) ∧
    (0 < Cls.available_slots c)%Z ∧
    book request_data uuid4 now g =
      (Response (BookedBody "Booking successfully created!"
                   (record uuid4 class_id client_name client_email now)
                   (Cls.available_slots c - 1)) 201,
       Some (Store (<[i := Cls.decrement c]> (classes s))
                   (bookings s ++ [record uuid4 class_id client_name client_email now]))).
Proof.
  destruct (request_cases request_data) as [Hm|(cid & n & e & Hwf)].
  - destruct (book_missing isoformat _ uuid4 now g Hm) as [err ->]. by intros [=].
  - rewrite (book_well_formed isoformat _ _ _ _ uuid4 now g Hwf).
    destruct g as [s|]; [|by intros [=]].
    destruct (find_class cid (classes s)) as [[i c]|] eqn:Hf; [|by intros [=]].
    destruct (Z.leb_spec (Cls.available_slots c) 0); [by intros [=]|].
    intros _. exists s, cid, n, e, i, c. by rewrite Hf.
Qed.

Lemma book_unchanged_unless_created request_data uuid4 now g :
  ¬ Created (book request_data uuid4 now g).1 →
  (book request_data uuid4 now g).2 = g.
Proof.
  destruct (request_cases request_data) as [Hm|(cid & n & e & Hwf)].
  - by destruct (book_missing isoformat _ uuid4 now g Hm) as [err ->].
  - rewrite (book_well_formed isoformat _ _ _ _ uuid4 now g Hwf).
    destruct g as [s|]; [|done].
    destruct (find_class cid (classes s)) as [[i c]|]; [|done].
    destruct (Z.leb_spec (Cls.available_slots c) 0); [done|].
    intros []. reflexivity.
Qed.

(** C3. A well-formed booking request for a class that the catalog resolves
    and that has no slot left is answered with 409 (ClassFull), and the
    catalog and the ledger stay as they were. *)
Theorem full_class_is_refused request_data class_id client_name client_email
    uuid4 now (s : store) i c :
  well_formed request_data class_id client_name client_email →
  find_class class_id (classes s) = Some (i, c) →
  Cls.available_slots c = 0%Z →
  ClassFull (book request_data uuid4 now (Some s)).1 ∧
  (book request_data uuid4 now (Some s)).2 = Some s.
Proof.
  intros Hwf Hf H0.
  rewrite (book_well_formed isoformat _ _ _ _ uuid4 now _ Hwf), Hf, H0.
  by split.
Qed.

(** C4, as the code has it.  A booking request whose three fields are
    non-empty and whose class id is carried by no class of the catalog is
    answered with 404 (ClassNotFound), whatever the name and the email
    are. *)
Theorem unknown_class_is_not_found request_data class_id client_name client_email
    uuid4 now (s : store) :
  well_formed request_data class_id client_name client_email →
  (∀ c, c ∈ classes s → Cls.id c ≠ class_id) →
  (book request_data uuid4 now (Some s)).1 =
    Response (ErrorBody ("Class with ID '" +:+ class_id +:+ "' not found.")) 404 ∧
  ClassNotFound (book request_data uuid4 now (Some s)).1.
Proof.
  intros Hwf Hno.
  rewrite (book_well_formed isoformat _ _ _ _ uuid4 now _ Hwf).
  assert (find_class class_id (classes s) = None) as ->; [|done].
  apply find_class_None, Forall_forall. intros c Hc. by apply Hno.
Qed.

(** C7. A booking request in which the class id, the client name or the
    client email is empty or absent is answered with 400 (InvalidInput), and
    the globals stay as they were. *)
Theorem missing_field_is_invalid_input request_data uuid4 now (g : globals) :
  missing (field request_data "class_id") ∨
  missing (field request_data "client_name") ∨
  missing (field request_data "client_email") →
  InvalidInput (book request_data uuid4 now g).1 ∧
  (book request_data uuid4 now g).2 = g.
Proof.
  intros Hm. by destruct (book_missing isoformat _ uuid4 now g Hm) as [err ->].
Qed.

(** C10. A booking request answered with 404 (ClassNotFound) leaves the
    catalog and the ledger as they were. *)
Theorem not_found_changes_nothing request_data uuid4 now (g : globals) :
  ClassNotFound (book request_data uuid4 now g).1 →
  (book request_data uuid4 now g).2 = g.
Proof.
  intros H404. apply book_unchanged_unless_created.
  unfold Created, ClassNotFound in *. congruence.
Qed.

(** C8, as the code has it.  A booking request that is handled with no
    other request in between and is answered with 201 carries the booking
    record that was created, with the class id, client name and client email
    of the request, and the [available_slots] of the class after the
    decrement: one less than the class had when the request arrived.  The
    record is the one appended to the ledger.  (When booking requests
    overlap, the answer carries what [available_slots] holds when line 143
    reads it, other requests' decrements included.) *)
Theorem created_returns_booking_and_remaining_slots request_data uuid4 now
    (g : globals) :
  Created (book request_data uuid4 now g).1 →
  ∃ s s' class_id client_name client_email i before after,
    g = Some s ∧ (book request_data uuid4 now g).2 = Some s' ∧
    well_formed request_data class_id client_name client_email ∧
    find_class class_id (classes s) = Some (i, before) ∧
    find_class class_id (classes s') = Some (i, after) ∧
    Cls.available_slots after = (Cls.available_slots before - 1)%Z ∧
    last (bookings s') =
      Some (Booking.mk uuid4 class_id client_name client_email (isoformat now)) ∧
    (book request_data uuid4 now g).1 =
      Response (BookedBody "Booking successfully created!"
                  (Booking.mk uuid4 class_id client_name client_email (isoformat now))
                  (Cls.available_slots after)) 201.
Proof.
  intros (s & cid & n & e & i & c & -> & Hwf & Hf & Hpos & ->)%book_created_inv.
  eexists s, _, cid, n, e, i, c, (Cls.decrement c). simpl.
  split_and!; try done.
  - by apply find_class_decrement.
  - apply last_snoc.
Qed.

(** C9. A booking request answered with 201 appends one record to the
    ledger and changes one class, the first class of the catalog that carries
    the class id of the request: the ledger is the old one followed by the
    record of the request, the catalog has the same length, every class at
    another position is unchanged, and the booked class differs from its old
    value in [available_slots] only, which is one less. *)
Theorem created_changes_one_class_and_appends request_data uuid4 now
    (g : globals) :
  Created (book request_data uuid4 now g).1 →
  ∃ s s' class_id client_name client_email i before after,
    g = Some s ∧ (book request_data uuid4 now g).2 = Some s' ∧
    well_formed request_data class_id client_name client_email ∧
    classes s !! i = Some before ∧
    Cls.id before = class_id ∧
    (∀ j c, j < i → classes s !! j = Some c → Cls.id c ≠ class_id) ∧
    bookings s' =
      (bookings s ++
       [Booking.mk uuid4 class_id client_name client_email (isoformat now)])%list ∧
    length (classes s') = length (classes s) ∧
    classes s' !! i = Some after ∧
    (∀ j, j ≠ i → classes s' !! j = classes s !! j) ∧
    Cls.id after = Cls.id before ∧
    Cls.name after = Cls.name before ∧
    Cls.date_time after = Cls.date_time before ∧
    Cls.instructor after = Cls.instructor before ∧
    Cls.total_slots after = Cls.total_slots before ∧
    Cls.available_slots after = (Cls.available_slots before - 1)%Z.
Proof.
  intros (s & cid & n & e & i & c & -> & Hwf & Hf & Hpos & ->)%book_created_inv.
  pose proof Hf as (Hi & Hid & Hlt)%find_class_Some.
  apply list_find_Some in Hf as (_ & _ & Hleast).
  eexists s, _, cid, n, e, i, c, (Cls.decrement c). simpl.
  split_and!; try done.
  - intros j c' Hj Hc'. by eapply Hleast.
  - apply length_insert.
  - by apply list_lookup_insert_eq.
  - intros j Hj. by apply list_lookup_insert_ne.
Qed.

End Booking_theorems.

(** ** Looking up the bookings of a client *)

Lemma sublist_into_filter {A} (P : A → Prop) `{!∀ x, Decision (P x)} (l k : list A) :
  l `sublist_of` k → Forall P l → l `sublist_of` filter P k.
Proof.
  induction 1 as [|x l k Hlk IH|x l k Hlk IH]; intros HP.
  - constructor.
  - apply Forall_cons in HP as [Hx Hl].
    rewrite filter_cons_True by done. constructor. by apply IH.
  - rewrite filter_cons. destruct (decide (P x)); [constructor|]; by apply IH.
Qed.

Section Query_theorems.

Variable lower : string → string.

Local Abbreviation query := (get_client_bookings_by_email lower).

Lemma query_nonempty q g :
  q ≠ "" →
  query (Some q) g =
  match g with
  | None => (Raised (NameError "bookings"), g)
  | Some s =>
    match client_specific_bookings lower q (bookings s) with
    | [] => (Response (MessageBody ("No bookings found for email: '" +:+ q +:+ "'.")) 200, g)
    | found => (Response (BookingsBody found) 200, g)
    end
  end.
Proof.
  intros Hq. unfold get_client_bookings_by_email. simpl.
  by rewrite bool_decide_eq_true_2.
Qed.

(** C5, as the code has it.  For a non-empty email that no booking of the
    ledger matches, the lookup is answered with 200 and a message object
    that names the email: a success, not an error, but not an empty list of
    bookings either.  The globals stay as they were. *)
Theorem no_match_is_a_message (q : string) (s : store) :
  q ≠ "" →
  (∀ b, b ∈ bookings s → ¬ same_email lower (Booking.client_email b) q) →
  query (Some q) (Some s) =
    (Response (MessageBody ("No bookings found for email: '" +:+ q +:+ "'.")) 200,
     Some s) ∧
  Ok (query (Some q) (Some s)).1.
Proof.
  intros Hq Hno. rewrite (query_nonempty q _ Hq).
  assert (client_specific_bookings lower q (bookings s) = []) as ->; [|done].
  unfold client_specific_bookings.
  destruct (filter _ (bookings s)) as [|b l] eqn:Hfl; [done|].
  assert (b ∈ filter (λ booking, lower (Booking.client_email booking) = lower q)
                     (bookings s)) as [Hb Hin]%list_elem_of_filter
    by (rewrite Hfl; left).
  by destruct (Hno b Hin).
Qed.

(** C6, as the code has it.  For a non-empty query email that at least one
    booking matches when case is ignored, the lookup is answered with 200
    and exactly the matching bookings in ledger order: the answer is taken
    from the ledger in order, holds a booking iff the ledger holds it and its
    email matches, and contains every run of matching ledger entries.  So a
    booking made under an email that lower-cases like the query is found. *)
Theorem matches_are_returned_in_ledger_order (q : string) (s : store) :
  q ≠ "" →
  (∃ b, b ∈ bookings s ∧ same_email lower (Booking.client_email b) q) →
  ∃ found,
    query (Some q) (Some s) = (Response (BookingsBody found) 200, Some s) ∧
    found `sublist_of` bookings s ∧
    (∀ b, b ∈ found ↔ b ∈ bookings s ∧ same_email lower (Booking.client_email b) q) ∧
    (∀ l, l `sublist_of` bookings s →
          Forall (λ b, same_email lower (Booking.client_email b) q) l →
          l `sublist_of` found).
Proof.
  intros Hq (b & Hb & Hsame). rewrite (query_nonempty q _ Hq).
  exists (client_specific_bookings lower q (bookings s)).
  assert (b ∈ client_specific_bookings lower q (bookings s)) as Hin
    by (by apply list_elem_of_filter).
  split_and!.
  - destruct (client_specific_bookings lower q (bookings s)); [|done].
    by apply elem_of_nil in Hin.
  - apply sublist_filter.
  - intros b'. unfold client_specific_bookings. rewrite list_elem_of_filter.
    unfold same_email. tauto.
  - intros l Hl HP. by apply sublist_into_filter.
Qed.

End Query_theorems.

(** ** Filling a class *)

Section Capacity_theorems.

Variable lower : string → string.
Variable isoformat : Z → string.

Local Abbreviation book := (book_a_fitness_class isoformat).

(** A request that runs without another one in between does what the
    handler does. *)
Lemma run_alone_is_handler request_data uuid4 now g :
  run_alone isoformat (AtEntry request_data uuid4 now) g =
  (Finished (book request_data uuid4 now g).1, (book request_data uuid4 now g).2).
Proof.
  unfold run_alone, book_a_fitness_class. cbn [run_steps book_thread_step].
  destruct (negb (truthy_dict request_data)); [done|].
  cbv zeta.
  destruct (negb (all _)); [done|].
  destruct g as [s|]; [|done].
  destruct (find_class _ (classes s)) as [[i c]|] eqn:Hf; [|done].
  apply find_class_Some in Hf as (Hi & _ & Hlt).
  cbn [run_steps book_thread_step]. unfold target_slots at 1. rewrite Hi. simpl.
  destruct (Cls.available_slots c <=? 0)%Z; [done|].
  cbn [run_steps book_thread_step]. unfold target_slots. simpl.
  rewrite list_lookup_alter_eq, Hi. simpl.
  rewrite list_insert_alter.
  by rewrite (list_alter_ext Cls.decrement (λ _, Cls.decrement c) _ (classes s) i)
    by (intros; congruence).
Qed.

Lemma run_schedule_step k schedule ts g t :
  ts !! k = Some t →
  run_schedule isoformat (k :: schedule) ts g =
  run_schedule isoformat schedule
    (<[k := (book_thread_step isoformat t g).1]> ts) (book_thread_step isoformat t g).2.
Proof. intros H. simpl. rewrite H. by destruct (book_thread_step isoformat t g). Qed.

Lemma run_schedule_steps n k schedule :
  ∀ ts g t, ts !! k = Some t →
  run_schedule isoformat (replicate n k ++ schedule) ts g =
  run_schedule isoformat schedule
    (<[k := (run_steps isoformat n t g).1]> ts) (run_steps isoformat n t g).2.
Proof.
  induction n as [|n IH]; intros ts g t Hk.
  - simpl. by rewrite list_insert_id.
  - cbn [replicate app]. rewrite (run_schedule_step _ _ _ _ _ Hk).
    cbn [run_steps]. destruct (book_thread_step isoformat t g) as [t' g']. simpl.
    rewrite (IH _ g' t').
    + by rewrite list_insert_insert_eq.
    + apply list_lookup_insert_eq. by eapply lookup_lt_Some.
Qed.

(** Two requests scheduled one after the other, the second starting when
    the first has its outcome, are the two requests served in turn. *)
Lemma one_after_the_other r1 u1 n1 r2 u2 n2 g :
  run_schedule isoformat (replicate 5 0 ++ replicate 5 1)
    [AtEntry r1 u1 n1; AtEntry r2 u2 n2] g =
  (Finished <$> (serve lower isoformat [BookClass r1 u1 n1; BookClass r2 u2 n2] g).1,
   (serve lower isoformat [BookClass r1 u1 n1; BookClass r2 u2 n2] g).2).
Proof.
  rewrite (run_schedule_steps 5 0 _ _ g (AtEntry r1 u1 n1)) by done.
  fold (run_alone isoformat (AtEntry r1 u1 n1) g).
  rewrite run_alone_is_handler. cbn [fst snd]. simpl insert.
  rewrite <- (app_nil_r (replicate 5 1)).
  rewrite (run_schedule_steps 5 1 [] _ _ (AtEntry r2 u2 n2)) by done.
  fold (run_alone isoformat (AtEntry r2 u2 n2) (book r1 u1 n1 g).2).
  rewrite run_alone_is_handler. cbn [fst snd run_schedule]. simpl insert.
  rewrite !serve_cons. reflexivity.
Qed.

Lemma book_full request_data class_id uuid4 now s i c :
  (∃ n e, well_formed request_data class_id n e) →
  find_class class_id (classes s) = Some (i, c) →
  Cls.available_slots c = 0%Z →
  ClassFull (book request_data uuid4 now (Some s)).1 ∧
  (book request_data uuid4 now (Some s)).2 = Some s.
Proof.
  intros (n & e & Hwf) Hf H0.
  rewrite (book_well_formed isoformat _ _ _ _ uuid4 now _ Hwf), Hf, H0.
  by split.
Qed.

Lemma book_free request_data class_id uuid4 now s i c :
  (∃ n e, well_formed request_data class_id n e) →
  find_class class_id (classes s) = Some (i, c) →
  (0 < Cls.available_slots c)%Z →
  ∃ record,
    Booking.class_id record = class_id ∧
    Created (book request_data uuid4 now (Some s)).1 ∧
    (book request_data uuid4 now (Some s)).2 =
      Some (Store (<[i := Cls.decrement c]> (classes s)) (bookings s ++ [record])).
Proof.
  intros (n & e & Hwf) Hf Hpos.
  rewrite (book_well_formed isoformat _ _ _ _ uuid4 now _ Hwf), Hf.
  destruct (Z.leb_spec (Cls.available_slots c) 0); [lia|].
  eexists. split; [|split; [done|reflexivity]]. reflexivity.
Qed.

Lemma handle_book_op r g :
  handle lower isoformat (book_op r) g = book r.1.1 r.1.2 r.2 g.
Proof. reflexivity. Qed.

(** Served one after the other, the requests for a class with [n] slots
    left succeed [n] times and are refused from then on. *)
Lemma serve_bookings class_id reqs :
  Forall (books_class class_id) reqs →
  ∀ (s : store) i c (n : nat),
    find_class class_id (classes s) = Some (i, c) →
    Cls.available_slots c = Z.of_nat n →
    let r := serve lower isoformat (book_op <$> reqs) (Some s) in
    length r.1 = length reqs ∧
    Forall Created (take n r.1) ∧
    Forall ClassFull (drop n r.1) ∧
    ∃ s', r.2 = Some s' ∧
      length (bookings_of class_id (bookings s')) =
      length (bookings_of class_id (bookings s)) + min n (length reqs).
Proof.
  induction 1 as [|r reqs Hr Hreqs IH]; intros s i c n Hf Hn; cbv zeta in *.
  - simpl. split_and!; [done| | |].
    + by rewrite take_nil.
    + by rewrite drop_nil.
    + exists s. split; [done|]. lia.
  - rewrite fmap_cons, serve_cons, !handle_book_op. cbn [fst snd].
    destruct n as [|m].
    + destruct (book_full r.1.1 class_id r.1.2 r.2 s i c Hr Hf Hn) as [Hfull ->].
      destruct (IH s i c 0 Hf Hn) as (Hlen & _ & Hrest & s' & Hs' & Hcount).
      rewrite drop_0 in Hrest.
      split_and!; [simpl; by rewrite Hlen|by rewrite take_0|by constructor|].
      exists s'. split; [done|]. rewrite Hcount. simpl. lia.
    + destruct (book_free r.1.1 class_id r.1.2 r.2 s i c Hr Hf ltac:(lia))
        as (rec & Hrec & Hok & ->).
      destruct (IH (Store (<[i := Cls.decrement c]> (classes s)) (bookings s ++ [rec]))
                   i (Cls.decrement c) m) as (Hlen & Htake & Hdrop & s' & Hs' & Hcount).
      { by apply find_class_decrement. }
      { simpl. lia. }
      split_and!; [simpl; by rewrite Hlen|by constructor|done|].
      exists s'. split; [done|]. rewrite Hcount. simpl.
      unfold bookings_of. rewrite filter_app, length_app.
      rewrite (filter_cons_True _ rec []) by done. simpl. lia.
Qed.

(** C2, as the code has it.  Take a class with [total_slots = N], all of
    them available and none booked yet, and serve booking requests for it one
    after the other, each with non-empty fields.  The first [N] are answered
    with 201, every later one with 409 (ClassFull), and the ledger then holds
    exactly [N] bookings that reference the class.  (Requests that overlap
    are another matter: the handler takes no lock.) *)
Theorem sequential_bookings_fill_the_class class_id (s : store) i c (N : nat)
    (reqs : list (option (gmap string string) * string * Z)) :
  find_class class_id (classes s) = Some (i, c) →
  Cls.total_slots c = Z.of_nat N →
  Cls.available_slots c = Cls.total_slots c →
  bookings_of class_id (bookings s) = [] →
  Forall (books_class class_id) reqs →
  (N ≤ length reqs)%nat →
  let r := serve lower isoformat (book_op <$> reqs) (Some s) in
  length r.1 = length reqs ∧
  Forall Created (take N r.1) ∧
  Forall ClassFull (drop N r.1) ∧
  ∃ s', r.2 = Some s' ∧ length (bookings_of class_id (bookings s')) = N.
Proof.
  intros Hf Htot Hav Hnone Hreqs HN.
  destruct (serve_bookings class_id reqs Hreqs s i c N Hf ltac:(lia))
    as (Hlen & Htake & Hdrop & s' & Hs' & Hcount).
  split_and!; [done..|].
  exists s'. split; [done|]. rewrite Hcount, Hnone. simpl. lia.
Qed.

End Capacity_theorems.

(** ** The handlers on concrete requests *)

(** The scenario of the specification: one slot, Alice gets it, Bob is
    refused, and Alice's booking is found under her email. *)
Example yoga_scenario :
  (serve ascii_lower pretty
     [BookClass alice "u1" 5; BookClass bob "u2" 6; BookingsForClient (Some "a@x.com")]
     (Some one_slot)).1 =
  [ Response (BookedBody "Booking successfully created!"
                (Booking.mk "u1" "Yoga" "Alice" "a@x.com" "5") 0) 201;
    Response (ErrorBody "This class is fully booked. No slots available.") 409;
    Response (BookingsBody [Booking.mk "u1" "Yoga" "Alice" "a@x.com" "5"]) 200 ].
Proof. vm_compute. reflexivity. Qed.

(** A booking made under [A@B.com] is found when [a@b.com] is asked for. *)
Example mixed_case_email_is_found :
  (serve ascii_lower pretty
     [BookClass (booking_request "Yoga" "Alice" "A@B.com") "u1" 5;
      BookingsForClient (Some "a@b.com")]
     (Some one_slot)).1 =
  [ Response (BookedBody "Booking successfully created!"
                (Booking.mk "u1" "Yoga" "Alice" "A@B.com" "5") 0) 201;
    Response (BookingsBody [Booking.mk "u1" "Yoga" "Alice" "A@B.com" "5"]) 200 ].
Proof. vm_compute. reflexivity. Qed.

(** Before [reset_test_data] has run, the lists do not exist. *)
Example unbound_globals :
  (serve ascii_lower pretty
     [ListAllClasses; BookClass alice "u1" 5; BookingsForClient (Some "a@x.com");
      BookingsForClient None]
     None).1 =
  [ Raised (NameError "classes"); Raised (NameError "classes");
    Raised (NameError "bookings");
    Response (ErrorBody
      "Please provide a 'client_email' query parameter (e.g., /bookings?client_email=your.email@example.com).")
      400 ].
Proof. vm_compute. reflexivity. Qed.

Lemma alice_well_formed : well_formed alice "Yoga" "Alice" "a@x.com".
Proof. unfold well_formed. split_and!; by vm_compute. Defined.

Lemma bob_well_formed : well_formed bob "Yoga" "Bob" "b@x.com".
Proof. unfold well_formed. split_and!; by vm_compute. Defined.

Lemma one_slot_in_range : catalog_in_range (Some one_slot).
Proof. repeat constructor; by vm_compute. Defined.

Lemma available_slots_stay_in_range_witness :
  catalog_in_range
    (serve ascii_lower pretty
       [BookClass alice "u1" 5; ListAllClasses; BookClass bob "u2" 6;
        BookingsForClient (Some "a@x.com");
        ResetState "c1" "c2" "c3" "c4" 10 11 12 13;
        BookClass (booking_request "c2" "Bob" "b@x.com") "u3" 14]
       (Some one_slot)).2.
Proof. apply available_slots_stay_in_range. exact one_slot_in_range. Defined.

(** C2, the claim as stated, fails: two requests for the last slot that
    overlap both pass the test of line 120 before either decrements.  Both
    are answered with 201, the ledger holds two bookings of a class with one
    slot, and [available_slots] ends at -1. *)
Lemma race_on_the_last_slot_books_twice :
  run_schedule pretty [0; 0; 1; 1; 0; 0; 0; 1; 1; 1]
    [AtEntry alice "u1" 5; AtEntry bob "u2" 6] (Some one_slot) =
  ([ Finished (Response (BookedBody "Booking successfully created!"
                 (Booking.mk "u1" "Yoga" "Alice" "a@x.com" "5") 0) 201);
     Finished (Response (BookedBody "Booking successfully created!"
                 (Booking.mk "u2" "Yoga" "Bob" "b@x.com" "6") (-1)) 201) ],
   Some (Store [yoga (-1)]
               [Booking.mk "u1" "Yoga" "Alice" "a@x.com" "5";
                Booking.mk "u2" "Yoga" "Bob" "b@x.com" "6"])).
Proof. vm_compute. reflexivity. Qed.

(** C1, the claim as stated, fails: the two overlapping requests of the
    schedule above start from a catalog in range and leave the class with
    [available_slots = -1]. *)
Lemma overlapping_bookings_leave_the_range :
  catalog_in_range (Some one_slot) ∧
  ¬ catalog_in_range
      (run_schedule pretty both_check_first
         [AtEntry alice "u1" 5; AtEntry bob "u2" 6] (Some one_slot)).2.
Proof.
  split; [exact one_slot_in_range|].
  intros H. vm_compute in H. apply Forall_cons in H as [[H0 _] _]. by apply H0.
Qed.

(** C8, the claim as stated, fails: when both requests decrement before
    either builds its answer, Alice's 201 carries -1 although the class had
    one slot when her request arrived, and one less than that is 0. *)
Lemma overlapping_booking_reports_both_decrements :
  run_schedule pretty both_decrement_first
    [AtEntry alice "u1" 5; AtEntry bob "u2" 6] (Some one_slot) =
  ([ Finished (Response (BookedBody "Booking successfully created!"
                 (Booking.mk "u1" "Yoga" "Alice" "a@x.com" "5") (-1)) 201);
     Finished (Response (BookedBody "Booking successfully created!"
                 (Booking.mk "u2" "Yoga" "Bob" "b@x.com" "6") (-1)) 201) ],
   Some (Store [yoga (-1)]
               [Booking.mk "u1" "Yoga" "Alice" "a@x.com" "5";
                Booking.mk "u2" "Yoga" "Bob" "b@x.com" "6"])) ∧
  find_class "Yoga" (classes one_slot) = Some (0, yoga 1) ∧
  (Cls.available_slots (yoga 1) - 1)%Z ≠ (-1)%Z.
Proof. split_and!; by vm_compute. Qed.

Lemma sequential_bookings_fill_the_class_witness :
  let r := serve ascii_lower pretty
             (book_op <$> [(alice, "u1", 5%Z); (bob, "u2", 6%Z)]) (Some one_slot) in
  length r.1 = 2 ∧
  Forall Created (take 1 r.1) ∧
  Forall ClassFull (drop 1 r.1) ∧
  ∃ s', r.2 = Some s' ∧ length (bookings_of "Yoga" (bookings s')) = 1.
Proof.
  apply (sequential_bookings_fill_the_class ascii_lower pretty "Yoga" one_slot
           0 (yoga 1) 1 [(alice, "u1", 5%Z); (bob, "u2", 6%Z)]).
  - by vm_compute.
  - reflexivity.
  - reflexivity.
  - reflexivity.
  - repeat constructor.
    + exists "Alice", "a@x.com". exact alice_well_formed.
    + exists "Bob", "b@x.com". exact bob_well_formed.
  - simpl. lia.
Defined.

Lemma full_class_is_refused_witness :
  ClassFull (book_a_fitness_class pretty bob "u2" 6 (Some sold_out)).1 ∧
  (book_a_fitness_class pretty bob "u2" 6 (Some sold_out)).2 = Some sold_out.
Proof.
  apply (full_class_is_refused pretty bob "Yoga" "Bob" "b@x.com" "u2" 6 sold_out
           0 (yoga 0)).
  - exact bob_well_formed.
  - by vm_compute.
  - reflexivity.
Defined.

(** C4, the claim as stated, fails: the fields are tested before the
    catalog is searched, so an unknown class id together with an empty
    client name is answered with 400, not 404. *)
Lemma unknown_class_with_empty_name_is_invalid_input :
  let r := book_a_fitness_class pretty (booking_request "bad-id" "" "a@x.com")
             "u1" 5 (Some one_slot) in
  Forall (λ c, Cls.id c ≠ "bad-id") (classes one_slot) ∧
  InvalidInput r.1 ∧ ¬ ClassNotFound r.1.
Proof.
  split_and!.
  - repeat constructor. by vm_compute.
  - by vm_compute.
  - by vm_compute.
Qed.

Lemma unknown_class_is_not_found_witness :
  let r := book_a_fitness_class pretty (booking_request "bad-id" "Alice" "a@x.com")
             "u1" 5 (Some one_slot) in
  r.1 = Response (ErrorBody "Class with ID 'bad-id' not found.") 404 ∧
  ClassNotFound r.1.
Proof.
  apply (unknown_class_is_not_found pretty _ "bad-id" "Alice" "a@x.com" "u1" 5 one_slot).
  - unfold well_formed. split_and!; by vm_compute.
  - intros c [->|[]%elem_of_nil]%elem_of_cons. by vm_compute.
Defined.

Lemma missing_field_is_invalid_input_witness :
  let r := book_a_fitness_class pretty (booking_request "Yoga" "" "a@x.com")
             "u1" 5 (Some one_slot) in
  InvalidInput r.1 ∧ r.2 = Some one_slot.
Proof.
  apply (missing_field_is_invalid_input pretty).
  right. left. right. by vm_compute.
Defined.

Lemma not_found_changes_nothing_witness :
  (book_a_fitness_class pretty (booking_request "bad-id" "Alice" "a@x.com")
     "u1" 5 (Some one_slot)).2 = Some one_slot.
Proof. apply (not_found_changes_nothing pretty). by vm_compute. Defined.

Lemma created_returns_booking_and_remaining_slots_witness :
  ∃ s s' class_id client_name client_email i before after,
    Some one_slot = Some s ∧
    (book_a_fitness_class pretty alice "u1" 5 (Some one_slot)).2 = Some s' ∧
    well_formed alice class_id client_name client_email ∧
    find_class class_id (classes s) = Some (i, before) ∧
    find_class class_id (classes s') = Some (i, after) ∧
    Cls.available_slots after = (Cls.available_slots before - 1)%Z ∧
    last (bookings s') =
      Some (Booking.mk "u1" class_id client_name client_email (pretty 5%Z)) ∧
    (book_a_fitness_class pretty alice "u1" 5 (Some one_slot)).1 =
      Response (BookedBody "Booking successfully created!"
                  (Booking.mk "u1" class_id client_name client_email (pretty 5%Z))
                  (Cls.available_slots after)) 201.
Proof.
  apply (created_returns_booking_and_remaining_slots pretty alice "u1" 5 (Some one_slot)).
  by vm_compute.
Defined.

(** A booking of the second class in a studio that has a sold-out first
    class and a booking in the ledger. *)
Example booking_in_a_busy_studio :
  book_a_fitness_class pretty carol "u3" 7 (Some busy_studio) =
  (Response (BookedBody "Booking successfully created!"
               (Booking.mk "u3" "HIIT" "Carol" "Carol@X.com" "7") 11) 201,
   Some (Store [yoga 0; Cls.decrement hiit]
               [Booking.mk "u1" "Yoga" "Alice" "A@B.com" "5";
                Booking.mk "u3" "HIIT" "Carol" "Carol@X.com" "7"])).
Proof. vm_compute. reflexivity. Qed.

Lemma created_changes_one_class_and_appends_witness :
  ∃ s s' class_id client_name client_email i before after,
    Some busy_studio = Some s ∧
    (book_a_fitness_class pretty carol "u3" 7 (Some busy_studio)).2 = Some s' ∧
    well_formed carol class_id client_name client_email ∧
    classes s !! i = Some before ∧
    Cls.id before = class_id ∧
    (∀ j c, j < i → classes s !! j = Some c → Cls.id c ≠ class_id) ∧
    bookings s' =
      (bookings s ++
       [Booking.mk "u3" class_id client_name client_email (pretty 7%Z)])%list ∧
    length (classes s') = length (classes s) ∧
    classes s' !! i = Some after ∧
    (∀ j, j ≠ i → classes s' !! j = classes s !! j) ∧
    Cls.id after = Cls.id before ∧
    Cls.name after = Cls.name before ∧
    Cls.date_time after = Cls.date_time before ∧
    Cls.instructor after = Cls.instructor before ∧
    Cls.total_slots after = Cls.total_slots before ∧
    Cls.available_slots after = (Cls.available_slots before - 1)%Z.
Proof.
  apply (created_changes_one_class_and_appends pretty carol "u3" 7 (Some busy_studio)).
  by vm_compute.
Defined.

(** C5, the claim as stated, fails: with no match the handler answers with
    a message object, not with an empty list of bookings. *)
Lemma no_match_is_not_an_empty_list :
  let r := get_client_bookings_by_email ascii_lower (Some "nonexistent@example.com")
             (Some one_slot) in
  client_specific_bookings ascii_lower "nonexistent@example.com" (bookings one_slot) = [] ∧
  r.1 = Response (MessageBody
                    "No bookings found for email: 'nonexistent@example.com'.") 200 ∧
  r.1 ≠ Response (BookingsBody []) 200.
Proof. split_and!; by vm_compute. Qed.

Lemma no_match_is_a_message_witness :
  let r := get_client_bookings_by_email ascii_lower (Some "b@x.com") (Some sold_out) in
  r = (Response (MessageBody "No bookings found for email: 'b@x.com'.") 200,
       Some sold_out) ∧
  Ok r.1.
Proof.
  apply (no_match_is_a_message ascii_lower "b@x.com" sold_out).
  - by vm_compute.
  - intros b [->|[]%elem_of_nil]%elem_of_cons. by vm_compute.
Defined.

(** C6, the claim as stated, fails for a query that nothing matches: the
    answer is then a message object and no list of bookings at all. *)
Lemma unmatched_query_returns_no_list :
  let r := get_client_bookings_by_email ascii_lower (Some "b@x.com") (Some sold_out) in
  r.1 = Response (MessageBody "No bookings found for email: 'b@x.com'.") 200 ∧
  ¬ ∃ found status, r.1 = Response (BookingsBody found) status.
Proof.
  split; [by vm_compute|]. intros (found & status & H). vm_compute in H. discriminate H.
Qed.

Lemma matches_are_returned_in_ledger_order_witness :
  ∃ found,
    get_client_bookings_by_email ascii_lower (Some "a@b.com") (Some sold_out) =
      (Response (BookingsBody found) 200, Some sold_out) ∧
    found `sublist_of` bookings sold_out ∧
    (∀ b, b ∈ found ↔
          b ∈ bookings sold_out ∧ same_email ascii_lower (Booking.client_email b) "a@b.com") ∧
    (∀ l, l `sublist_of` bookings sold_out →
          Forall (λ b, same_email ascii_lower (Booking.client_email b) "a@b.com") l →
          l `sublist_of` found).
Proof.
  apply (matches_are_returned_in_ledger_order ascii_lower "a@b.com" sold_out).
  - by vm_compute.
  - exists (Booking.mk "u1" "Yoga" "Alice" "A@B.com" "5"). split; [left|by vm_compute].
Defined.

(** ** Requests at the edges *)

Section Edge_behaviour.

Variable lower : string → string.
Variable isoformat : Z → string.

Local Abbreviation book := (book_a_fitness_class isoformat).
Local Abbreviation query := (get_client_bookings_by_email lower).

Lemma query_missing q g :
  missing q →
  ∃ error, query q g = (Response (ErrorBody error) 400, g).
Proof.
  intros Hq%truthy_false. unfold get_client_bookings_by_email.
  rewrite Hq. simpl. eauto.
Qed.

Lemma query_not_created q g : ¬ Created (query q g).1.
Proof.
  unfold get_client_bookings_by_email.
  destruct (truthy q); simpl; [|by intros [=]].
  destruct g as [s|]; [|by intros [=]].
  by destruct (client_specific_bookings _ _ _); intros [=].
Qed.

Lemma listing_not_created g : ¬ Created (get_all_fitness_classes g).1.
Proof. by destruct g; intros [=]. Qed.

Lemma well_formed_unique request_data c n e c' n' e' :
  well_formed request_data c n e → well_formed request_data c' n' e' →
  c = c' ∧ n = n' ∧ e = e'.
Proof.
  intros (H1 & H2 & H3 & _) (H1' & H2' & H3' & _).
  rewrite H1 in H1'. rewrite H2 in H2'. rewrite H3 in H3'.
  by simplify_eq.
Qed.

(** X1. A lookup without a [client_email] parameter, or with an empty one,
    is answered with 400 and touches nothing, also while the lists are still
    unbound: the parameter is tested before [bookings] is read. *)
Theorem missing_email_is_invalid_input (q : option string) (g : globals) :
  missing q →
  InvalidInput (query q g).1 ∧ (query q g).2 = g.
Proof.
  intros Hq. by destruct (query_missing q g Hq) as [err ->].
Qed.

(** X2. Listing the classes and looking up bookings only read: after any
    run of these two operations, with any arguments, the globals are what
    they were. *)
Theorem reading_changes_nothing (ops : list op) (g : globals) :
  Forall (λ o, reads_only o = true) ops →
  (serve lower isoformat ops g).2 = g.
Proof.
  induction 1 as [|o ops Ho _ IH]; [done|].
  rewrite serve_cons. cbn [snd].
  destruct o; try discriminate Ho; cbn [handle].
  - by rewrite classes_unchanged.
  - by rewrite bookings_unchanged.
Qed.

(** X3. For a request whose body is absent or a JSON object with string
    values: on bound lists the booking request never raises and is answered
    with exactly one of four statuses, each for one reason: 400 iff a field is
    empty or absent; 404 iff the fields are there and no class carries the
    id; 409 iff the class found has no slot left (zero or less); 201 iff it
    has one. *)
Theorem booking_status_table request_data uuid4 now (s : store) :
  (InvalidInput (book request_data uuid4 now (Some s)).1 ↔
     missing (field request_data "class_id") ∨
     missing (field request_data "client_name") ∨
     missing (field request_data "client_email")) ∧
  (ClassNotFound (book request_data uuid4 now (Some s)).1 ↔
     ∃ class_id n e, well_formed request_data class_id n e ∧
       find_class class_id (classes s) = None) ∧
  (ClassFull (book request_data uuid4 now (Some s)).1 ↔
     ∃ class_id n e i c, well_formed request_data class_id n e ∧
       find_class class_id (classes s) = Some (i, c) ∧
       (Cls.available_slots c ≤ 0)%Z) ∧
  (Created (book request_data uuid4 now (Some s)).1 ↔
     ∃ class_id n e i c, well_formed request_data class_id n e ∧
       find_class class_id (classes s) = Some (i, c) ∧
       (0 < Cls.available_slots c)%Z) ∧
  (InvalidInput (book request_data uuid4 now (Some s)).1 ∨
   ClassNotFound (book request_data uuid4 now (Some s)).1 ∨
   ClassFull (book request_data uuid4 now (Some s)).1 ∨
   Created (book request_data uuid4 now (Some s)).1).
Proof.
  destruct (request_cases request_data) as [Hm|(cid & n & e & Hwf)].
  - destruct (book_missing isoformat _ uuid4 now (Some s) Hm) as [err ->].
    cbn [fst]. split_and!; [done| | | |by left].
    + split; [by intros [=]|]. intros (c & n & e & Hwf & _).
      by destruct (missing_not_well_formed _ _ _ _ Hwf).
    + split; [by intros [=]|]. intros (c & n & e & i & c0 & Hwf & _).
      by destruct (missing_not_well_formed _ _ _ _ Hwf).
    + split; [by intros [=]|]. intros (c & n & e & i & c0 & Hwf & _).
      by destruct (missing_not_well_formed _ _ _ _ Hwf).
  - pose proof (missing_not_well_formed _ _ _ _ Hwf) as Hnm.
    rewrite (book_well_formed isoformat _ _ _ _ uuid4 now _ Hwf).
    destruct (find_class cid (classes s)) as [[i c]|] eqn:Hf.
    + destruct (Z.leb_spec (Cls.available_slots c) 0) as [Hle|Hlt]; cbn [fst].
      * split_and!; [split; [by intros [=]|done]| | | |by right; right; left].
        -- split; [by intros [=]|].
           intros (c' & n' & e' & Hwf' & Hf').
           destruct (well_formed_unique _ _ _ _ _ _ _ Hwf Hwf') as (<- & _). congruence.
        -- split; [|done]. intros _. by exists cid, n, e, i, c.
        -- split; [by intros [=]|].
           intros (c' & n' & e' & i' & c0 & Hwf' & Hf' & Hpos).
           destruct (well_formed_unique _ _ _ _ _ _ _ Hwf Hwf') as (<- & _).
           rewrite Hf in Hf'. simplify_eq. lia.
      * split_and!; [split; [by intros [=]|done]| | | |by right; right; right].
        -- split; [by intros [=]|].
           intros (c' & n' & e' & Hwf' & Hf').
           destruct (well_formed_unique _ _ _ _ _ _ _ Hwf Hwf') as (<- & _). congruence.
        -- split; [by intros [=]|].
           intros (c' & n' & e' & i' & c0 & Hwf' & Hf' & Hpos).
           destruct (well_formed_unique _ _ _ _ _ _ _ Hwf Hwf') as (<- & _).
           rewrite Hf in Hf'. simplify_eq. lia.
        -- split; [|done]. intros _. by exists cid, n, e, i, c.
    + cbn [fst]. split_and!; [split; [by intros [=]|done]| | | |by right; left].
      * split; [|done]. intros _. by exists cid, n, e.
      * split; [by intros [=]|].
        intros (c' & n' & e' & i' & c0 & Hwf' & Hf' & _).
        destruct (well_formed_unique _ _ _ _ _ _ _ Hwf Hwf') as (<- & _). congruence.
      * split; [by intros [=]|].
        intros (c' & n' & e' & i' & c0 & Hwf' & Hf' & _).
        destruct (well_formed_unique _ _ _ _ _ _ _ Hwf Hwf') as (<- & _). congruence.
Qed.

Lemma handle_unbound o :
  is_reset o = false →
  (handle lower isoformat o None).2 = None ∧
  unbound_answer (handle lower isoformat o None).1.
Proof.
  destruct o as [| |rd u t|q]; [done| | |]; intros _; cbn [handle].
  - split; [done|]. left. by eexists.
  - destruct (request_cases rd) as [Hm|(cid & n & e & Hwf)].
    + destruct (book_missing isoformat _ u t None Hm) as [err ->]. split; [done|by right].
    + rewrite (book_well_formed isoformat _ _ _ _ u t None Hwf).
      split; [done|]. left. by eexists.
  - unfold get_client_bookings_by_email. destruct (truthy q); simpl.
    + split; [done|]. left. by eexists.
    + split; [done|by right].
Qed.

(** X4. [classes] and [bookings] are bound by [reset_test_data] alone.  As
    long as no reset is served, the lists stay unbound, and every request
    whose body, if it has one, is absent or a JSON object with string values
    is answered with 400 (its own fields are wrong) or raises [NameError]. *)
Theorem unbound_until_reset (ops : list op) :
  Forall (λ o, is_reset o = false) ops →
  (serve lower isoformat ops None).2 = None ∧
  Forall unbound_answer (serve lower isoformat ops None).1.
Proof.
  induction 1 as [|o ops Ho _ [IH1 IH2]]; [by split|].
  rewrite serve_cons. cbn [fst snd].
  destruct (handle_unbound o Ho) as [-> Hans].
  split; [done|]. by constructor.
Qed.

End Edge_behaviour.

(** ** What a run of requests keeps *)

Section Runs.

Variable lower : string → string.
Variable isoformat : Z → string.

Local Abbreviation book := (book_a_fitness_class isoformat).
Local Abbreviation serving := (serve lower isoformat).
Local Abbreviation handling := (handle lower isoformat).

(** A request other than a reset leaves the globals alone, unless it is a
    booking answered with 201, which decrements the class found and appends
    its record. *)
Lemma handle_outcomes o g :
  is_reset o = false →
  ((handling o g).2 = g ∧ ¬ Created (handling o g).1) ∨
  ∃ s class_id n e u t i c,
    g = Some s ∧ class_id ≠ "" ∧ n ≠ "" ∧ e ≠ "" ∧
    find_class class_id (classes s) = Some (i, c) ∧
    (0 < Cls.available_slots c)%Z ∧
    Created (handling o g).1 ∧
    (handling o g).2 =
      Some (Store (<[i := Cls.decrement c]> (classes s))
                  (bookings s ++ [new_booking_record isoformat u class_id n e t])).
Proof.
  destruct o as [| |rd u t|q]; [done| | |]; intros _; cbn [handle].
  - left. split; [apply classes_unchanged|apply listing_not_created].
  - destruct (decide (status_of (book rd u t g).1 = Some 201%Z)) as [Hc|Hc].
    + right.
      destruct (book_created_inv isoformat rd u t g Hc)
        as (s & cid & n & e & i & c & -> & Hwf & Hf & Hpos & Heq).
      destruct Hwf as (_ & _ & _ & ? & ? & ?).
      exists s, cid, n, e, u, t, i, c. rewrite Heq. by split_and!.
    + left. split; [by apply book_unchanged_unless_created|done].
  - left. split; [apply bookings_unchanged|apply query_not_created].
Qed.

Lemma serve_preserves (P : globals → Prop) (ok : op → Prop) :
  (∀ o g, ok o → P g → P (handling o g).2) →
  ∀ ops g, Forall ok ops → P g → P (serving ops g).2.
Proof.
  intros Hstep ops. induction ops as [|o ops IH]; intros g Hok Hg; [done|].
  apply Forall_cons in Hok as [Ho Hops].
  rewrite serve_cons. cbn [snd]. apply IH; [done|]. by apply Hstep.
Qed.

Lemma count_created_cons_yes o outs :
  Created o → count_created (o :: outs) = S (count_created outs).
Proof. intros Ho. unfold count_created. by rewrite filter_cons_True. Qed.

Lemma count_created_cons_no o outs :
  ¬ Created o → count_created (o :: outs) = count_created outs.
Proof. intros Ho. unfold count_created. by rewrite filter_cons_False. Qed.

(** X5. The ledger is append-only, and a record is appended exactly when a
    request is answered with 201: without a reset in between, the ledger
    after a run is the ledger before it followed by as many new records as
    there were 201 answers. *)
Theorem ledger_grows_by_created (ops : list op) (s : store) :
  Forall (λ o, is_reset o = false) ops →
  ∃ s' new,
    (serving ops (Some s)).2 = Some s' ∧
    bookings s' = (bookings s ++ new)%list ∧
    length new = count_created (serving ops (Some s)).1.
Proof.
  intros Hops. revert s.
  induction Hops as [|o ops Ho _ IH]; intros s.
  - exists s, []. by rewrite app_nil_r.
  - rewrite serve_cons. cbn [fst snd].
    destruct (handle_outcomes o (Some s) Ho)
      as [[-> Hno]|(s0 & cid & n & e & u & t & i & c & [= <-] & _ & _ & _ & _ & _ & Hyes & ->)].
    + destruct (IH s) as (s' & new & Hs' & Hb & Hlen).
      exists s', new. by rewrite count_created_cons_no.
    + destruct (IH (Store (<[i := Cls.decrement c]> (classes s))
                          (bookings s ++ [new_booking_record isoformat u cid n e t])))
        as (s' & new & Hs' & Hb & Hlen).
      exists s', (new_booking_record isoformat u cid n e t :: new).
      rewrite count_created_cons_yes by done. simpl in Hb.
      split_and!; [done| |simpl; by rewrite Hlen].
      by rewrite Hb, <- app_assoc.
Qed.

Lemma same_class_refl c : same_class_fewer_slots c c.
Proof. unfold same_class_fewer_slots. by split_and!. Qed.

Lemma same_class_trans a b c :
  same_class_fewer_slots a b → same_class_fewer_slots b c → same_class_fewer_slots a c.
Proof. unfold same_class_fewer_slots. intros (?&?&?&?&?&?) (?&?&?&?&?&?). split_and!; try congruence. lia. Qed.

Lemma same_class_decrement c : same_class_fewer_slots c (Cls.decrement c).
Proof. unfold same_class_fewer_slots. destruct c; simpl. split_and!; try done. lia. Qed.

Lemma catalog_refl cs : Forall2 same_class_fewer_slots cs cs.
Proof. apply Forall_Forall2_diag, Forall_forall. intros. apply same_class_refl. Qed.

Lemma catalog_decrement cs i c :
  cs !! i = Some c →
  Forall2 same_class_fewer_slots cs (<[i := Cls.decrement c]> cs).
Proof.
  intros Hi. rewrite <- (list_insert_id cs i c Hi) at 1.
  apply Forall2_insert; [apply catalog_refl|apply same_class_decrement].
Qed.

Lemma serve_catalog ops :
  Forall (λ o, is_reset o = false) ops →
  ∀ s, ∃ s', (serving ops (Some s)).2 = Some s' ∧
             Forall2 same_class_fewer_slots (classes s) (classes s').
Proof.
  induction 1 as [|o ops Ho _ IH]; intros s.
  - exists s. split; [done|apply catalog_refl].
  - rewrite serve_cons. cbn [snd].
    destruct (handle_outcomes o (Some s) Ho)
      as [[-> _]|(s0 & cid & n & e & u & t & i & c & [= <-] & _ & _ & _ & Hf & _ & _ & ->)].
    + apply IH.
    + destruct (IH (Store (<[i := Cls.decrement c]> (classes s))
                          (bookings s ++ [new_booking_record isoformat u cid n e t])))
        as (s' & Hs' & Hcat).
      exists s'. split; [done|].
      apply find_class_Some in Hf as (Hi & _ & _).
      eapply Forall2_trans; [|by apply catalog_decrement|exact Hcat].
      apply same_class_trans.
Qed.

(** X6. Booking, listing and lookup never add, remove, reorder or rename a
    class and never give a slot back: without a reset in between, the catalog
    after a run has, position by position, the same id, name, date, instructor
    and capacity as before, and no more available slots. *)
Theorem catalog_is_stable (ops : list op) (s : store) :
  Forall (λ o, is_reset o = false) ops →
  ∃ s', (serving ops (Some s)).2 = Some s' ∧
        length (classes s') = length (classes s) ∧
        Forall2 same_class_fewer_slots (classes s) (classes s').
Proof.
  intros Hops. destruct (serve_catalog ops Hops s) as (s' & Hs' & Hcat).
  exists s'. split_and!; [done| |done].
  symmetry. by eapply Forall2_length.
Qed.

Lemma find_class_stable class_id cs cs' i c :
  Forall2 same_class_fewer_slots cs cs' →
  find_class class_id cs = Some (i, c) →
  ∃ c', find_class class_id cs' = Some (i, c') ∧ same_class_fewer_slots c c'.
Proof.
  unfold find_class. intros Hcat (Hi & Hid & Hleast)%list_find_Some.
  destruct (Forall2_lookup_l _ _ _ _ _ Hcat Hi) as (c' & Hi' & Hcc).
  exists c'. split; [|done].
  apply list_find_Some. split_and!; [done|by destruct Hcc as [-> _]|].
  intros j y' Hj Hlt.
  destruct (Forall2_lookup_r _ _ _ _ _ Hcat Hj) as (y & Hy & Hyy).
  destruct Hyy as [-> _]. by eapply Hleast.
Qed.

(** X7. There is no way to cancel: once a class has no slot left, every
    later booking request for it with non-empty fields is answered with 409,
    whatever was booked, listed or looked up in between, until a reset. *)
Theorem full_class_stays_full (ops : list op) (s : store)
    request_data class_id n e uuid4 now i c :
  Forall (λ o, is_reset o = false) ops →
  well_formed request_data class_id n e →
  find_class class_id (classes s) = Some (i, c) →
  (Cls.available_slots c ≤ 0)%Z →
  ClassFull (book request_data uuid4 now (serving ops (Some s)).2).1.
Proof.
  intros Hops Hwf Hf Hfull.
  destruct (serve_catalog ops Hops s) as (s' & -> & Hcat).
  destruct (find_class_stable _ _ _ _ _ Hcat Hf) as (c' & Hf' & Hcc).
  rewrite (book_well_formed isoformat _ _ _ _ uuid4 now _ Hwf), Hf'.
  destruct Hcc as (_ & _ & _ & _ & _ & Hle).
  destruct (Z.leb_spec (Cls.available_slots c') 0); [done|lia].
Qed.

Lemma bookings_of_snoc_same class_id bs b :
  Booking.class_id b = class_id →
  bookings_of class_id (bs ++ [b]) = (bookings_of class_id bs ++ [b])%list.
Proof.
  intros Hb. unfold bookings_of. rewrite filter_app.
  by rewrite (filter_cons_True _ b []).
Qed.

Lemma bookings_of_snoc_other class_id bs b :
  Booking.class_id b ≠ class_id →
  bookings_of class_id (bs ++ [b]) = bookings_of class_id bs.
Proof.
  intros Hb. unfold bookings_of. rewrite filter_app.
  rewrite (filter_cons_False _ b []) by done. apply app_nil_r.
Qed.

Lemma ids_decrement (cs : list Cls.t) i c :
  cs !! i = Some c →
  Cls.id <$> <[i := Cls.decrement c]> cs = Cls.id <$> cs.
Proof.
  intros Hi. rewrite list_fmap_insert. apply list_insert_id.
  rewrite list_lookup_fmap, Hi. by destruct c.
Qed.

Lemma handle_accounted o g :
  fresh_ids o → accounted g → accounted (handling o g).2.
Proof.
  intros Hfresh Hg.
  destruct (is_reset o) eqn:Ho.
  { destruct o; try discriminate Ho. cbn. split; [exact Hfresh|]. repeat constructor. }
  destruct (handle_outcomes o g Ho)
    as [[-> _]|(s & cid & n & e & u' & t' & i & c & -> & _ & _ & _ & Hf & Hpos & _ & ->)];
    [done|].
  {
    destruct Hg as [Hnd Hall]. cbn [accounted classes bookings].
    pose proof Hf as (Hi & Hid & Hlt)%find_class_Some.
    split; [by rewrite ids_decrement|].
    apply Forall_lookup. intros j c' Hj.
    destruct (decide (j = i)) as [->|Hne].
    + rewrite list_lookup_insert_eq in Hj by done. injection Hj as <-.
      pose proof (Forall_lookup_1 _ _ _ _ Hall Hi) as Hc. cbn beta in Hc.
      assert (Cls.id (Cls.decrement c) = Cls.id c) as -> by by destruct c.
      rewrite bookings_of_snoc_same by done.
      rewrite length_app. cbn [length].
      replace (Cls.total_slots (Cls.decrement c)) with (Cls.total_slots c) by by destruct c.
      replace (Cls.available_slots (Cls.decrement c))
        with (Cls.available_slots c - 1)%Z by by destruct c.
      lia.
    + rewrite list_lookup_insert_ne in Hj by done.
      pose proof (Forall_lookup_1 _ _ _ _ Hall Hj) as Hc. cbn beta in Hc.
      rewrite bookings_of_snoc_other; [done|]. cbn. intros Heq.
      apply Hne. eapply NoDup_lookup; [exact Hnd| |].
      * by rewrite list_lookup_fmap, Hj.
      * rewrite list_lookup_fmap, Hi. cbn. congruence.
  }
Qed.

(** X8. No phantom booking and no lost decrement: as long as every reset
    draws four distinct ids, a catalog with unique ids in which each class has
    [total_slots = available_slots + (number of bookings that reference it)]
    stays so under any run of operations.  The unbound lists of process start
    are such a state. *)
Theorem bookings_account_for_slots (ops : list op) (g : globals) :
  Forall fresh_ids ops →
  accounted g →
  accounted (serving ops g).2.
Proof.
  revert g. induction ops as [|o ops IH]; intros g Hok Hg; [done|].
  apply Forall_cons in Hok as [Ho Hops].
  rewrite serve_cons. cbn [snd]. apply IH; [done|]. by apply handle_accounted.
Qed.

Lemma decrement_keeps_ids (cs : list Cls.t) i c c0 :
  cs !! i = Some c → c0 ∈ cs →
  ∃ c1, c1 ∈ <[i := Cls.decrement c]> cs ∧ Cls.id c1 = Cls.id c0.
Proof.
  intros Hi [j Hj]%list_elem_of_lookup.
  destruct (decide (j = i)) as [->|Hne].
  - exists (Cls.decrement c). split.
    + apply list_elem_of_insert. by eapply lookup_lt_Some.
    + rewrite Hi in Hj. injection Hj as <-. by destruct c.
  - exists c0. split; [|done].
    apply list_elem_of_lookup. exists j. by rewrite list_lookup_insert_ne.
Qed.

(** X9. A booking never references a class that is not in the catalog: if
    every record of the ledger carries the id of some class, this is still so
    after any run of operations, resets included. *)
Theorem bookings_reference_classes (ops : list op) (g : globals) :
  references_resolve g →
  references_resolve (serving ops g).2.
Proof.
  revert g. induction ops as [|o ops IH]; intros g Hg; [done|].
  rewrite serve_cons. cbn [snd]. apply IH.
  destruct (is_reset o) eqn:Ho.
  - destruct o; try discriminate Ho. cbn. constructor.
  - destruct (handle_outcomes o g Ho)
      as [[-> _]|(s & cid & n & e & u & t & i & c & -> & _ & _ & _ & Hf & _ & _ & ->)];
      [done|].
    apply find_class_Some in Hf as (Hi & Hid & Hlt).
    cbn in Hg |- *. apply Forall_app. split.
    + eapply Forall_impl; [exact Hg|]. cbn.
      intros b (c0 & Hc0 & Hb).
      destruct (decrement_keeps_ids _ _ _ _ Hi Hc0) as (c1 & ? & ?).
      exists c1. split; [done|congruence].
    + constructor; [|constructor]. exists (Cls.decrement c). split.
      * by apply list_elem_of_insert.
      * cbn. by destruct c.
Qed.

(** X10. The ledger never holds a record with an empty class id, client
    name or client email: if it holds none, it holds none after any run of
    operations. *)
Theorem ledger_fields_stay_nonempty (ops : list op) (g : globals) :
  ledger_fields_nonempty g →
  ledger_fields_nonempty (serving ops g).2.
Proof.
  revert g. induction ops as [|o ops IH]; intros g Hg; [done|].
  rewrite serve_cons. cbn [snd]. apply IH.
  destruct (is_reset o) eqn:Ho.
  - destruct o; try discriminate Ho. cbn. constructor.
  - destruct (handle_outcomes o g Ho)
      as [[-> _]|(s & cid & n & e & u & t & i & c & -> & ? & ? & ? & _ & _ & _ & ->)];
      [done|].
    cbn in Hg |- *. apply Forall_app. split; [done|].
    by repeat constructor.
Qed.

End Runs.

(** ** How the requests compose *)

Section Compositions.

Variable lower : string → string.
Variable isoformat : Z → string.

Local Abbreviation book := (book_a_fitness_class isoformat).
Local Abbreviation query := (get_client_bookings_by_email lower).
Local Abbreviation serving := (serve lower isoformat).

Lemma matches_snoc q bs b :
  same_email lower (Booking.client_email b) q →
  client_specific_bookings lower q (bs ++ [b]) =
  (client_specific_bookings lower q bs ++ [b])%list.
Proof.
  intros Hb. unfold client_specific_bookings. rewrite filter_app.
  by rewrite (filter_cons_True _ b []).
Qed.

(** X11. A booking can be looked up at once: after a request answered with
    201, a lookup under any non-empty email that equals the booking's email
    when case is ignored returns the bookings that matched before, followed
    by the new record. *)
Theorem booking_is_found_by_email request_data uuid4 now (g : globals)
    class_id n e (q : string) :
  Created (book request_data uuid4 now g).1 →
  well_formed request_data class_id n e →
  q ≠ "" →
  same_email lower e q →
  ∃ s, g = Some s ∧
    (query (Some q) (book request_data uuid4 now g).2).1 =
    Response (BookingsBody
                (client_specific_bookings lower q (bookings s) ++
                 [Booking.mk uuid4 class_id n e (isoformat now)])) 200.
Proof.
  intros Hc Hwf Hq Hsame.
  destruct (book_created_inv isoformat _ _ _ _ Hc)
    as (s & cid' & n' & e' & i & c & -> & Hwf' & Hf & Hpos & ->).
  destruct (well_formed_unique _ _ _ _ _ _ _ Hwf Hwf') as (<- & <- & <-).
  exists s. split; [done|]. cbn [snd].
  rewrite (query_nonempty lower q _ Hq). cbn [bookings].
  rewrite matches_snoc by done.
  by destruct (client_specific_bookings lower q (bookings s)).
Qed.

(** X12. The [class_remaining_slots] of a 201 answer is what the listing
    shows next: right after the booking, [GET /classes] answers with 200 and
    a catalog in which the class carrying the booked id has exactly that many
    available slots. *)
Theorem remaining_slots_match_listing request_data uuid4 now (g : globals) :
  Created (book request_data uuid4 now g).1 →
  ∃ message b remaining cs i c,
    (book request_data uuid4 now g).1 = Response (BookedBody message b remaining) 201 ∧
    (get_all_fitness_classes (book request_data uuid4 now g).2).1 =
      Response (ClassesBody cs) 200 ∧
    find_class (Booking.class_id b) cs = Some (i, c) ∧
    Cls.available_slots c = remaining.
Proof.
  intros (s & cid & n & e & i & c & -> & Hwf & Hf & Hpos & ->)%book_created_inv.
  eexists _, _, _, _, i, (Cls.decrement c). cbn [fst snd].
  split_and!; [done|done| |by destruct c].
  by apply find_class_decrement.
Qed.

(** X13. The case of the query does not matter either: two non-empty
    queries that are equal when case is ignored get the same answer whenever
    some booking matches. *)
Theorem query_ignores_case (q1 q2 : string) (s : store) :
  q1 ≠ "" → q2 ≠ "" →
  same_email lower q1 q2 →
  (∃ b, b ∈ bookings s ∧ same_email lower (Booking.client_email b) q1) →
  query (Some q1) (Some s) = query (Some q2) (Some s).
Proof.
  intros H1 H2 Hsame (b & Hb & Hbq).
  rewrite (query_nonempty lower q1 _ H1), (query_nonempty lower q2 _ H2).
  assert (client_specific_bookings lower q2 (bookings s) =
          client_specific_bookings lower q1 (bookings s)) as ->.
  { unfold client_specific_bookings, same_email in *. by rewrite Hsame. }
  assert (b ∈ client_specific_bookings lower q1 (bookings s)) as Hin
    by (by apply list_elem_of_filter).
  destruct (client_specific_bookings lower q1 (bookings s)); [|done].
  by apply elem_of_nil in Hin.
Qed.

Lemma serve_bookings_slots class_id reqs :
  Forall (books_class class_id) reqs →
  ∀ (s : store) i c (k : nat),
    find_class class_id (classes s) = Some (i, c) →
    Cls.available_slots c = Z.of_nat k →
    ∃ s' c',
      (serving (book_op <$> reqs) (Some s)).2 = Some s' ∧
      find_class class_id (classes s') = Some (i, c') ∧
      Cls.available_slots c' = Z.of_nat (k - length reqs).
Proof.
  induction 1 as [|r reqs Hr Hreqs IH]; intros s i c k Hf Hk.
  - exists s, c. split_and!; [done..|]. rewrite Hk. f_equal. simpl. lia.
  - rewrite fmap_cons, serve_cons, !handle_book_op. cbn [snd].
    destruct k as [|m].
    + destruct (book_full isoformat r.1.1 class_id r.1.2 r.2 s i c Hr Hf Hk) as [_ ->].
      destruct (IH s i c 0 Hf Hk) as (s' & c' & ? & ? & ?).
      by exists s', c'.
    + destruct (book_free isoformat r.1.1 class_id r.1.2 r.2 s i c Hr Hf ltac:(lia))
        as (rec & _ & _ & ->).
      destruct (IH (Store (<[i := Cls.decrement c]> (classes s)) (bookings s ++ [rec]))
                   i (Cls.decrement c) m) as (s' & c' & ? & ? & ?).
      { by apply find_class_decrement. }
      { destruct c; simpl in *. lia. }
      by exists s', c'.
Qed.

(** X14. Requests for one class served one after the other, each with
    non-empty fields: if the class has [k] slots left, the first [k] requests
    are answered with 201 and all later ones with 409, and the class ends with
    [k] minus the number of requests slots, or none. *)
Theorem bookings_succeed_while_slots_last class_id (s : store) i c (k : nat)
    (reqs : list (option (gmap string string) * string * Z)) :
  find_class class_id (classes s) = Some (i, c) →
  Cls.available_slots c = Z.of_nat k →
  Forall (books_class class_id) reqs →
  Forall Created (take k (serving (book_op <$> reqs) (Some s)).1) ∧
  Forall ClassFull (drop k (serving (book_op <$> reqs) (Some s)).1) ∧
  ∃ s' c',
    (serving (book_op <$> reqs) (Some s)).2 = Some s' ∧
    find_class class_id (classes s') = Some (i, c') ∧
    Cls.available_slots c' = Z.of_nat (k - length reqs).
Proof.
  intros Hf Hk Hreqs.
  destruct (serve_bookings lower isoformat class_id reqs Hreqs s i c k Hf Hk)
    as (_ & Htake & Hdrop & _).
  split_and!; [done..|].
  by apply (serve_bookings_slots class_id reqs Hreqs s i c k).
Qed.

End Compositions.

(** ** Requests that overlap, and requests that do not *)

Section Schedules.

Variable lower : string → string.
Variable isoformat : Z → string.

Local Abbreviation step := (book_thread_step isoformat).
Local Abbreviation running := (run_schedule isoformat).

Lemma step_entry request_data class_id n e uuid4 now s i c :
  well_formed request_data class_id n e →
  find_class class_id (classes s) = Some (i, c) →
  step (AtEntry request_data uuid4 now) (Some s) =
  (AtCheck i class_id n e uuid4 now, Some s).
Proof.
  intros (H1 & H2 & H3 & N1 & N2 & N3) Hf. cbn [book_thread_step].
  rewrite (truthy_dict_field _ _ _ H1). simpl.
  rewrite !field_default, H1, H2, H3. simpl.
  rewrite !bool_decide_eq_true_2 by done. simpl. by rewrite Hf.
Qed.

Lemma step_check i class_id n e uuid4 now s c :
  classes s !! i = Some c →
  (0 < Cls.available_slots c)%Z →
  step (AtCheck i class_id n e uuid4 now) (Some s) =
  (AtDecrement i class_id n e uuid4 now, Some s).
Proof.
  intros Hi Hpos. cbn [book_thread_step]. unfold target_slots. rewrite Hi. simpl.
  by destruct (Z.leb_spec (Cls.available_slots c) 0); [lia|].
Qed.

Lemma alter_decrement (cs : list Cls.t) i c :
  cs !! i = Some c → alter Cls.decrement i cs = <[i := Cls.decrement c]> cs.
Proof.
  intros Hi. rewrite list_insert_alter.
  apply list_alter_ext; [|done]. intros; congruence.
Qed.

(** The schedule [both_check_first] on any class with one slot left and
    any two requests for it with non-empty fields: both are answered with
    201, two records are appended and, each statement being one step, the
    class ends with [available_slots = -1]. *)
Lemma overlapping_requests_oversell class_id (s : store) i c
    (r1 r2 : option (gmap string string) * string * Z) :
  find_class class_id (classes s) = Some (i, c) →
  Cls.available_slots c = 1%Z →
  books_class class_id r1 →
  books_class class_id r2 →
  ∃ b1 b2,
    running both_check_first [entry r1; entry r2] (Some s) =
    ([ Finished (Response (BookedBody "Booking successfully created!" b1 0) 201);
       Finished (Response (BookedBody "Booking successfully created!" b2 (-1)) 201) ],
     Some (Store (<[i := Cls.decrement (Cls.decrement c)]> (classes s))
                 (bookings s ++ [b1; b2]))) ∧
    Booking.class_id b1 = class_id ∧ Booking.class_id b2 = class_id ∧
    Cls.available_slots (Cls.decrement (Cls.decrement c)) = (-1)%Z.
Proof.
  intros Hf H1 (n1 & e1 & Hwf1) (n2 & e2 & Hwf2).
  pose proof Hf as (Hi & Hid & Hlt)%find_class_Some.
  exists (new_booking_record isoformat r1.1.2 class_id n1 e1 r1.2),
         (new_booking_record isoformat r2.1.2 class_id n2 e2 r2.2).
  split; [|split_and!; [done|done|destruct c; simpl in *; lia]].
  unfold both_check_first, entry.
  erewrite run_schedule_step; [|reflexivity].
  rewrite (step_entry _ _ _ _ _ _ _ _ _ Hwf1 Hf). cbn [fst snd insert list_insert].
  erewrite run_schedule_step; [|reflexivity].
  rewrite (step_check _ _ _ _ _ _ _ _ Hi) by lia. cbn [fst snd insert list_insert].
  erewrite run_schedule_step; [|reflexivity].
  rewrite (step_entry _ _ _ _ _ _ _ _ _ Hwf2 Hf). cbn [fst snd insert list_insert].
  erewrite run_schedule_step; [|reflexivity].
  rewrite (step_check _ _ _ _ _ _ _ _ Hi) by lia. cbn [fst snd insert list_insert].
  erewrite run_schedule_step; [|reflexivity].
  cbn [book_thread_step fst snd insert list_insert classes bookings].
  erewrite run_schedule_step; [|reflexivity].
  cbn [book_thread_step fst snd insert list_insert classes bookings].
  erewrite run_schedule_step; [|reflexivity].
  cbn [book_thread_step fst snd insert list_insert classes bookings].
  erewrite run_schedule_step; [|reflexivity].
  cbn [book_thread_step fst snd insert list_insert classes bookings].
  erewrite run_schedule_step; [|reflexivity].
  cbn [book_thread_step fst snd insert list_insert classes bookings].
  erewrite run_schedule_step; [|reflexivity].
  cbn [book_thread_step fst snd insert list_insert classes bookings run_schedule].
  rewrite (alter_decrement _ _ _ Hi).
  rewrite (alter_decrement _ i (Cls.decrement c))
    by (by apply list_lookup_insert_eq).
  rewrite list_insert_insert_eq.
  unfold target_slots. cbn [classes].
  rewrite !list_lookup_insert_eq by (by rewrite ?length_insert).
  rewrite <- app_assoc. cbn [from_option app].
  replace (Cls.available_slots (Cls.decrement c)) with 0%Z
    by (destruct c; simpl in *; lia).
  replace (Cls.available_slots (Cls.decrement (Cls.decrement c))) with (-1)%Z
    by (destruct c; simpl in *; lia).
  reflexivity.
Qed.

Lemma run_schedule_app a b :
  ∀ ts g,
    running (a ++ b) ts g = running b (running a ts g).1 (running a ts g).2.
Proof.
  induction a as [|k a IH]; intros ts g; [done|].
  cbn [app run_schedule]. destruct (ts !! k) as [t|]; [|apply IH].
  destruct (step t g) as [t' g']. apply IH.
Qed.

(** Entering the handler and passing the test change nothing: however two
    requests for a class with a slot left interleave these two steps, both
    end up in front of the decrement. *)
Lemma tests_first_reach_decrement class_id (s : store) i c r1 r2 n1 e1 n2 e2 pre :
  find_class class_id (classes s) = Some (i, c) →
  (0 < Cls.available_slots c)%Z →
  well_formed r1.1.1 class_id n1 e1 →
  well_formed r2.1.1 class_id n2 e2 →
  pre ∈ tests_first →
  running pre [entry r1; entry r2] (Some s) =
  ([AtDecrement i class_id n1 e1 r1.1.2 r1.2; AtDecrement i class_id n2 e2 r2.1.2 r2.2],
   Some s).
Proof.
  intros Hf Hpos Hwf1 Hwf2 Hpre.
  pose proof Hf as (Hi & _ & _)%find_class_Some.
  unfold tests_first in Hpre. rewrite !elem_of_cons, elem_of_nil in Hpre.
  unfold entry.
  destruct Hpre as [->|[->|[->|[->|[->|[->|[]]]]]]];
    repeat (erewrite run_schedule_step; [|reflexivity];
            first [ rewrite (step_entry _ _ _ _ _ _ _ _ _ Hwf1 Hf)
                  | rewrite (step_entry _ _ _ _ _ _ _ _ _ Hwf2 Hf)
                  | rewrite (step_check _ _ _ _ _ _ _ _ Hi Hpos) ];
            cbn [fst snd insert list_insert]);
    reflexivity.
Qed.

(** One more step of a request that is past the test: it stays past the
    test, and the ledger grows by what the request appends. *)
Lemma step_past_test i b t (st : store) :
  past_test isoformat i b t →
  ∃ t' st' a,
    step t (Some st) = (t', Some st') ∧
    past_test isoformat i b t' ∧
    bookings st' = (bookings st ++ a)%list ∧
    appended t' = (appended t ++ a)%list.
Proof.
  destruct t as [| | j cid n e u now | j b' | j b' | o]; cbn [past_test]; try done.
  - intros [-> <-]. eexists _, _, []. cbn [book_thread_step bookings appended].
    split_and!; [done|done|by rewrite app_nil_r|done].
  - intros [-> ->]. eexists _, _, [b]. cbn [book_thread_step bookings appended].
    by split_and!.
  - intros [-> ->]. eexists _, _, []. cbn [book_thread_step bookings appended].
    split_and!; [done|by eexists|by rewrite app_nil_r|done].
  - intros [r ->]. eexists _, _, []. cbn [book_thread_step bookings appended].
    split_and!; [done|by eexists|by rewrite app_nil_r|done].
Qed.

(** Two requests past the test, run in any order: both stay past the test
    and the ledger is the old one followed by what they have appended. *)
Lemma run_past_test i b1 b2 (bs : list Booking.t) rest :
  ∀ t1 t2 (st : store) new,
    past_test isoformat i b1 t1 → past_test isoformat i b2 t2 →
    bookings st = (bs ++ new)%list →
    new ≡ₚ appended t1 ++ appended t2 →
    ∃ t1' t2' st' new',
      running rest [t1; t2] (Some st) = ([t1'; t2'], Some st') ∧
      past_test isoformat i b1 t1' ∧ past_test isoformat i b2 t2' ∧
      bookings st' = (bs ++ new')%list ∧
      new' ≡ₚ appended t1' ++ appended t2'.
Proof.
  induction rest as [|k rest IH]; intros t1 t2 st new H1 H2 Hb Hnew.
  - by exists t1, t2, st, new.
  - destruct k as [|[|k]].
    + destruct (step_past_test i b1 t1 st H1) as (t' & st' & a & Hstep & H1' & Hb' & Ha).
      rewrite (run_schedule_step isoformat 0 rest [t1; t2] (Some st) t1 eq_refl), Hstep.
      cbn [fst snd insert list_insert].
      apply (IH t' t2 st' (new ++ a)%list); [done|done| |].
      * by rewrite Hb', Hb, app_assoc.
      * rewrite Ha, Hnew, <- !app_assoc. apply Permutation_app_head, Permutation_app_comm.
    + destruct (step_past_test i b2 t2 st H2) as (t' & st' & a & Hstep & H2' & Hb' & Ha).
      rewrite (run_schedule_step isoformat 1 rest [t1; t2] (Some st) t2 eq_refl), Hstep.
      cbn [fst snd insert list_insert].
      apply (IH t1 t' st' (new ++ a)%list); [done|done| |].
      * by rewrite Hb', Hb, app_assoc.
      * by rewrite Ha, Hnew, <- !app_assoc.
    + cbn [run_schedule lookup list_lookup]. by apply (IH t1 t2 st new).
Qed.

(** X15. Nothing serializes two booking requests, and past the test of
    line 120 there is no way back.  Take a class with exactly one slot left
    and two requests for it with non-empty fields that both enter the handler
    and pass the test before either goes on.  However their remaining
    statements interleave, once both have their answer both answers are 201
    and the ledger is the old one followed by the two records, in the order
    in which they were appended: two bookings for one slot. *)
Theorem requests_past_the_test_both_book class_id (s : store) i c
    (r1 r2 : option (gmap string string) * string * Z) n1 e1 n2 e2
    (pre rest : list nat) o1 o2 (g' : globals) :
  find_class class_id (classes s) = Some (i, c) →
  Cls.available_slots c = 1%Z →
  well_formed r1.1.1 class_id n1 e1 →
  well_formed r2.1.1 class_id n2 e2 →
  pre ∈ tests_first →
  running (pre ++ rest) [entry r1; entry r2] (Some s) = ([Finished o1; Finished o2], g') →
  Created o1 ∧ Created o2 ∧
  ∃ s' new,
    g' = Some s' ∧
    bookings s' = (bookings s ++ new)%list ∧
    new ≡ₚ [ Booking.mk r1.1.2 class_id n1 e1 (isoformat r1.2);
             Booking.mk r2.1.2 class_id n2 e2 (isoformat r2.2) ].
Proof.
  intros Hf Hone Hwf1 Hwf2 Hpre Hrun.
  rewrite run_schedule_app in Hrun.
  rewrite (tests_first_reach_decrement _ _ _ _ _ _ _ _ _ _ _ Hf ltac:(lia) Hwf1 Hwf2 Hpre)
    in Hrun.
  cbn [fst snd] in Hrun.
  destruct (run_past_test i
              (Booking.mk r1.1.2 class_id n1 e1 (isoformat r1.2))
              (Booking.mk r2.1.2 class_id n2 e2 (isoformat r2.2))
              (bookings s) rest
              (AtDecrement i class_id n1 e1 r1.1.2 r1.2)
              (AtDecrement i class_id n2 e2 r2.1.2 r2.2) s [])
    as (t1' & t2' & s' & new & Hrun' & H1 & H2 & Hb & Hnew).
  { by split. }
  { by split. }
  { by rewrite app_nil_r. }
  { done. }
  rewrite Hrun' in Hrun. injection Hrun as -> -> <-.
  destruct H1 as [k1 ->], H2 as [k2 ->].
  split_and!; [done|done|].
  exists s', new. by split_and!.
Qed.

Lemma run_steps_entry r g :
  run_steps isoformat 5 (entry r) g =
  (Finished (book_a_fitness_class isoformat r.1.1 r.1.2 r.2 g).1,
   (book_a_fitness_class isoformat r.1.1 r.1.2 r.2 g).2).
Proof. apply run_alone_is_handler. Qed.

Lemma in_turn_runs (reqs : list (option (gmap string string) * string * Z)) :
  ∀ (finished : list book_thread) g,
    running (in_turn (length finished) (length reqs))
      (finished ++ (entry <$> reqs))%list g =
    ((finished ++ (Finished <$> (serve lower isoformat (book_op <$> reqs) g).1))%list,
     (serve lower isoformat (book_op <$> reqs) g).2).
Proof.
  induction reqs as [|r reqs IH]; intros finished g; [done|].
  cbn [length in_turn fmap list_fmap].
  rewrite (run_schedule_steps isoformat 5 (length finished) _ _ g (entry r))
    by (by rewrite list_lookup_middle).
  rewrite run_steps_entry. cbn [fst snd].
  rewrite insert_app_r_alt, Nat.sub_diag by lia. cbn [insert list_insert].
  rewrite (cons_middle _ finished), app_assoc.
  replace (S (length finished))
    with (length (finished ++ [Finished (book_a_fitness_class isoformat r.1.1 r.1.2 r.2 g).1]))
    by (rewrite length_app; simpl; lia).
  rewrite IH.
  change (book_op <$> r :: reqs) with (book_op r :: (book_op <$> reqs)).
  rewrite (serve_cons lower isoformat (book_op r)), handle_book_op. cbn [fst snd fmap list_fmap].
  by rewrite <- app_assoc.
Qed.

(** The steps of a request are the handler cut in pieces: when each
    request runs from entry to outcome before the next one starts, the
    outcomes and the final lists are those of serving the requests one after
    the other. *)
Lemma requests_in_turn_are_served (reqs : list (option (gmap string string) * string * Z))
    (g : globals) :
  running (in_turn 0 (length reqs)) (entry <$> reqs) g =
  (Finished <$> (serve lower isoformat (book_op <$> reqs) g).1,
   (serve lower isoformat (book_op <$> reqs) g).2).
Proof. apply (in_turn_runs reqs [] g). Qed.

End Schedules.

(** ** The further properties on concrete requests *)

Example morning_at_the_studio :
  (serve ascii_lower pretty morning (Some studio)).1 =
  [ Response (BookedBody "Booking successfully created!"
                (Booking.mk "u1" "Yoga" "Alice" "a@x.com" "5") 0) 201;
    Response (ClassesBody [yoga 0; hiit]) 200;
    Response (ErrorBody "This class is fully booked. No slots available.") 409;
    Response (BookedBody "Booking successfully created!"
                (Booking.mk "u3" "HIIT" "Carol" "Carol@X.com" "7") 11) 201;
    Response (BookingsBody [Booking.mk "u3" "HIIT" "Carol" "Carol@X.com" "7"]) 200 ].
Proof. vm_compute. reflexivity. Qed.

Lemma morning_has_no_reset : Forall (λ o, is_reset o = false) morning.
Proof. repeat constructor. Defined.

Lemma carol_well_formed : well_formed carol "HIIT" "Carol" "Carol@X.com".
Proof. unfold well_formed. split_and!; by vm_compute. Defined.

Lemma studio_accounted : accounted (Some studio).
Proof.
  split.
  - apply (bool_decide_unpack _). by vm_compute.
  - repeat constructor.
Defined.

Lemma missing_email_is_invalid_input_witness :
  InvalidInput (get_client_bookings_by_email ascii_lower (Some "") (Some sold_out)).1 ∧
  (get_client_bookings_by_email ascii_lower (Some "") (Some sold_out)).2 = Some sold_out.
Proof. apply (missing_email_is_invalid_input ascii_lower). by right. Defined.

Lemma reading_changes_nothing_witness :
  (serve ascii_lower pretty
     [ListAllClasses; BookingsForClient (Some "a@b.com"); BookingsForClient None;
      ListAllClasses]
     (Some sold_out)).2 = Some sold_out.
Proof. apply reading_changes_nothing. repeat constructor. Defined.

Lemma unbound_until_reset_witness :
  (serve ascii_lower pretty morning None).2 = None ∧
  Forall unbound_answer (serve ascii_lower pretty morning None).1.
Proof. apply unbound_until_reset. exact morning_has_no_reset. Defined.

Lemma ledger_grows_by_created_witness :
  ∃ s' new,
    (serve ascii_lower pretty morning (Some studio)).2 = Some s' ∧
    bookings s' = (bookings studio ++ new)%list ∧
    length new = count_created (serve ascii_lower pretty morning (Some studio)).1.
Proof. apply ledger_grows_by_created. exact morning_has_no_reset. Defined.

Lemma catalog_is_stable_witness :
  ∃ s', (serve ascii_lower pretty morning (Some studio)).2 = Some s' ∧
        length (classes s') = length (classes studio) ∧
        Forall2 same_class_fewer_slots (classes studio) (classes s').
Proof. apply catalog_is_stable. exact morning_has_no_reset. Defined.

Lemma full_class_stays_full_witness :
  ClassFull (book_a_fitness_class pretty bob "u9" 9
               (serve ascii_lower pretty morning (Some (Store [yoga 0; hiit] []))).2).1.
Proof.
  apply (full_class_stays_full ascii_lower pretty morning (Store [yoga 0; hiit] [])
           bob "Yoga" "Bob" "b@x.com" "u9" 9 0 (yoga 0)).
  - exact morning_has_no_reset.
  - exact bob_well_formed.
  - by vm_compute.
  - by vm_compute.
Defined.

Lemma bookings_account_for_slots_witness :
  accounted (serve ascii_lower pretty morning_with_reset (Some studio)).2.
Proof.
  apply bookings_account_for_slots.
  - unfold morning_with_reset, morning. cbn [app].
    repeat (apply Forall_cons_2;
            [first [exact I | apply (bool_decide_unpack _); by vm_compute]|]).
    apply Forall_nil_2.
  - exact studio_accounted.
Defined.

Lemma bookings_reference_classes_witness :
  references_resolve (serve ascii_lower pretty morning_with_reset (Some sold_out)).2.
Proof.
  apply bookings_reference_classes.
  constructor; [|constructor]. exists (yoga 0). split; [left|reflexivity].
Defined.

Lemma ledger_fields_stay_nonempty_witness :
  ledger_fields_nonempty (serve ascii_lower pretty morning_with_reset (Some sold_out)).2.
Proof.
  apply ledger_fields_stay_nonempty.
  constructor; [|constructor]. unfold fields_nonempty. split_and!; by vm_compute.
Defined.

Lemma booking_is_found_by_email_witness :
  ∃ s, Some studio = Some s ∧
    (get_client_bookings_by_email ascii_lower (Some "carol@x.COM")
       (book_a_fitness_class pretty carol "u3" 7 (Some studio)).2).1 =
    Response (BookingsBody
                (client_specific_bookings ascii_lower "carol@x.COM" (bookings s) ++
                 [Booking.mk "u3" "HIIT" "Carol" "Carol@X.com" (pretty 7%Z)])) 200.
Proof.
  apply (booking_is_found_by_email ascii_lower pretty carol "u3" 7 (Some studio)
           "HIIT" "Carol" "Carol@X.com" "carol@x.COM").
  - by vm_compute.
  - exact carol_well_formed.
  - by vm_compute.
  - by vm_compute.
Defined.

Lemma remaining_slots_match_listing_witness :
  ∃ message b remaining cs i c,
    (book_a_fitness_class pretty carol "u3" 7 (Some studio)).1 =
      Response (BookedBody message b remaining) 201 ∧
    (get_all_fitness_classes (book_a_fitness_class pretty carol "u3" 7 (Some studio)).2).1 =
      Response (ClassesBody cs) 200 ∧
    find_class (Booking.class_id b) cs = Some (i, c) ∧
    Cls.available_slots c = remaining.
Proof. apply (remaining_slots_match_listing pretty carol "u3" 7 (Some studio)). by vm_compute. Defined.

Lemma query_ignores_case_witness :
  get_client_bookings_by_email ascii_lower (Some "A@B.COM") (Some sold_out) =
  get_client_bookings_by_email ascii_lower (Some "a@b.com") (Some sold_out).
Proof.
  apply (query_ignores_case ascii_lower "A@B.COM" "a@b.com" sold_out).
  - by vm_compute.
  - by vm_compute.
  - by vm_compute.
  - exists (Booking.mk "u1" "Yoga" "Alice" "A@B.com" "5"). split; [left|by vm_compute].
Defined.

Lemma bookings_succeed_while_slots_last_witness :
  Forall Created
    (take 1 (serve ascii_lower pretty
               (book_op <$> [(alice, "u1", 5%Z); (bob, "u2", 6%Z); (alice, "u3", 7%Z)])
               (Some studio)).1) ∧
  Forall ClassFull
    (drop 1 (serve ascii_lower pretty
               (book_op <$> [(alice, "u1", 5%Z); (bob, "u2", 6%Z); (alice, "u3", 7%Z)])
               (Some studio)).1) ∧
  ∃ s' c',
    (serve ascii_lower pretty
       (book_op <$> [(alice, "u1", 5%Z); (bob, "u2", 6%Z); (alice, "u3", 7%Z)])
       (Some studio)).2 = Some s' ∧
    find_class "Yoga" (classes s') = Some (0, c') ∧
    Cls.available_slots c' = Z.of_nat (1 - 3).
Proof.
  apply (bookings_succeed_while_slots_last ascii_lower pretty "Yoga" studio 0 (yoga 1) 1
           [(alice, "u1", 5%Z); (bob, "u2", 6%Z); (alice, "u3", 7%Z)]).
  - by vm_compute.
  - reflexivity.
  - repeat constructor.
    + exists "Alice", "a@x.com". exact alice_well_formed.
    + exists "Bob", "b@x.com". exact bob_well_formed.
    + exists "Alice", "a@x.com". exact alice_well_formed.
Defined.


(** ** After a reset, and what an answer tells *)

Section Reset_and_answers.

Variable lower : string → string.
Variable isoformat : Z → string.

Local Abbreviation book := (book_a_fitness_class isoformat).
Local Abbreviation serving := (serve lower isoformat).
Local Abbreviation reset := (reset_test_data isoformat).

(** X17. After a reset, whatever the lists held before, the class listed
    first takes eighteen bookings: of the requests for it served one after the
    other, each with non-empty fields, the first 18 are answered with 201 and
    all later ones with 409, and the listing then shows it with 18 minus the
    number of requests slots, or none. *)
Theorem first_class_takes_eighteen_bookings (g : globals) u1 u2 u3 u4 t1 t2 t3 t4
    (reqs : list (option (gmap string string) * string * Z)) :
  Forall (books_class u1) reqs →
  Forall Created
    (take 18 (serving (book_op <$> reqs) (reset u1 u2 u3 u4 t1 t2 t3 t4 g).2).1) ∧
  Forall ClassFull
    (drop 18 (serving (book_op <$> reqs) (reset u1 u2 u3 u4 t1 t2 t3 t4 g).2).1) ∧
  ∃ s' c',
    (serving (book_op <$> reqs) (reset u1 u2 u3 u4 t1 t2 t3 t4 g).2).2 = Some s' ∧
    classes s' !! 0 = Some c' ∧
    Cls.available_slots c' = Z.of_nat (18 - length reqs).
Proof.
  intros Hreqs. cbn [reset_test_data snd].
  set (s0 := Store (seed_classes isoformat u1 u2 u3 u4 t1 t2 t3 t4) []).
  assert (∃ c0, find_class u1 (classes s0) = Some (0, c0) ∧
                Cls.available_slots c0 = Z.of_nat 18) as (c0 & Hf & Hk).
  { eexists. split.
    - apply list_find_Some. split_and!; [reflexivity|reflexivity|].
      intros j y _ Hlt. lia.
    - reflexivity. }
  destruct (serve_bookings lower isoformat u1 reqs Hreqs s0 0 c0 18 Hf Hk)
    as (_ & Htake & Hdrop & _).
  destruct (serve_bookings_slots lower isoformat u1 reqs Hreqs s0 0 c0 18 Hf Hk)
    as (s' & c' & Hs' & Hf' & Hk').
  split_and!; [done..|].
  exists s', c'. split_and!; [done| |done].
  by apply find_class_Some in Hf' as (? & _).
Qed.

(** X18. The status tells whether anything changed: a booking request
    leaves the globals exactly as they were iff it is not answered with
    201. *)
Theorem unchanged_iff_not_created request_data uuid4 now (g : globals) :
  (book request_data uuid4 now g).2 = g ↔
  ¬ Created (book request_data uuid4 now g).1.
Proof.
  split; [|apply book_unchanged_unless_created].
  intros Heq Hc.
  destruct (book_created_inv isoformat _ _ _ _ Hc)
    as (s & cid & n & e & i & c & -> & _ & _ & _ & Hbook).
  rewrite Hbook in Heq. cbn [snd] in Heq. injection Heq as Hs.
  apply (f_equal (λ s, length (bookings s))) in Hs. cbn beta in Hs.
  cbn [bookings] in Hs. rewrite length_app in Hs. simpl in Hs. lia.
Qed.

End Reset_and_answers.

Lemma first_class_takes_eighteen_bookings_witness :
  Forall Created
    (take 18 (serve ascii_lower pretty
                (book_op <$> [(booking_request "c1" "Alice" "a@x.com", "u1", 20%Z)])
                (reset_test_data pretty "c1" "c2" "c3" "c4" 10 11 12 13 (Some sold_out)).2).1) ∧
  Forall ClassFull
    (drop 18 (serve ascii_lower pretty
                (book_op <$> [(booking_request "c1" "Alice" "a@x.com", "u1", 20%Z)])
                (reset_test_data pretty "c1" "c2" "c3" "c4" 10 11 12 13 (Some sold_out)).2).1) ∧
  ∃ s' c',
    (serve ascii_lower pretty
       (book_op <$> [(booking_request "c1" "Alice" "a@x.com", "u1", 20%Z)])
       (reset_test_data pretty "c1" "c2" "c3" "c4" 10 11 12 13 (Some sold_out)).2).2 = Some s' ∧
    classes s' !! 0 = Some c' ∧
    Cls.available_slots c' = Z.of_nat (18 - 1).
Proof.
  apply (first_class_takes_eighteen_bookings ascii_lower pretty (Some sold_out)
           "c1" "c2" "c3" "c4" 10 11 12 13
           [(booking_request "c1" "Alice" "a@x.com", "u1", 20%Z)]).
  repeat constructor. exists "Alice", "a@x.com".
  unfold well_formed. split_and!; by vm_compute.
Defined.

(** Another interleaving of the same two requests: Bob appends first. *)
Lemma requests_past_the_test_both_book_witness :
  Created (Response (BookedBody "Booking successfully created!"
                       (Booking.mk "u1" "Yoga" "Alice" "a@x.com" "5") (-1)) 201) ∧
  Created (Response (BookedBody "Booking successfully created!"
                       (Booking.mk "u2" "Yoga" "Bob" "b@x.com" "6") (-1)) 201) ∧
  ∃ s' new,
    Some (Store [yoga (-1); hiit]
                [Booking.mk "u2" "Yoga" "Bob" "b@x.com" "6";
                 Booking.mk "u1" "Yoga" "Alice" "a@x.com" "5"]) = Some s' ∧
    bookings s' = (bookings studio ++ new)%list ∧
    new ≡ₚ [ Booking.mk "u1" "Yoga" "Alice" "a@x.com" (pretty 5%Z);
             Booking.mk "u2" "Yoga" "Bob" "b@x.com" (pretty 6%Z) ].
Proof.
  apply (requests_past_the_test_both_book pretty "Yoga" studio 0 (yoga 1)
           (alice, "u1", 5%Z) (bob, "u2", 6%Z) "Alice" "a@x.com" "Bob" "b@x.com"
           [0; 1; 0; 1] [1; 1; 0; 1; 0; 0]).
  - by vm_compute.
  - reflexivity.
  - exact alice_well_formed.
  - exact bob_well_formed.
  - unfold tests_first. right. left.
  - by vm_compute.
Defined.
